(** * World Bank data server: a shallow embedding of [server.py]

    The server exposes three resources over a local CSV file and three
    tools over two upstream HTTP APIs.  Every handler is embedded as a
    function of the same name.  What the handlers cannot decide themselves
    is an input of the model, gathered in a [world]: the outcome of an
    outbound HTTP call, whether the data file exists and what
    [pl.read_csv] makes of it, and the row order the polars engine picks
    for [unique()].

    Conventions.
    - A Python [str] is a [string]; each character stands for one code
      point (the model covers code points below 256).
    - A Python [int] is a [Z]; a [float] is carried by its [repr], since
      the code never computes with one.
    - A [dict] is an association list in insertion order with pairwise
      distinct keys; lookup takes the first binding.
    - Only subclasses of [Exception] are modelled.  [KeyboardInterrupt]
      and [SystemExit] are outside the model.
    - [logger] calls do not influence any returned value and are left
      out.
    - The world does not change while one handler runs.  Every request
      is sent with the fixed 30 second timeout; its expiry is the
      [TimeoutException] outcome of the call. *)

From Stdlib Require Import String Ascii List ZArith Bool Lia DecimalString.
From Stdlib Require Import Permutation DecimalZ.
Import ListNotations.

Open Scope string_scope.
Open Scope Z_scope.

(** ** Python values *)

#[local] Set Warnings "-register-all".

Inductive value : Type :=
| VNone
| VBool (b : bool)
| VInt (z : Z)
| VFloat (repr : string)
| VStr (s : string)
| VList (l : list value)
| VDict (d : list (string * value)).

(** [type(v).__name__] *)
Definition type_name (v : value) : string :=
  match v with
  | VNone => "NoneType"
  | VBool _ => "bool"
  | VInt _ => "int"
  | VFloat _ => "float"
  | VStr _ => "str"
  | VList _ => "list"
  | VDict _ => "dict"
  end.

(** [str(z)] for an [int]. *)
Definition str_int (z : Z) : string := NilZero.string_of_int (Z.to_int z).

(** [repr(k)] for a key without quotes, backslashes or control characters. *)
Definition repr_str (k : string) : string := "'" ++ k ++ "'".

(** ** Exceptions

    One constructor per class told apart by an [except] clause of the
    server, plus the built-in classes raised while reshaping a response.
    [TimeoutException] is a subclass of [httpx.RequestError]; the
    constructor [RequestError] stands for every other subclass.  Each
    constructor carries [str(e)]. *)

Inductive exn : Type :=
| HTTPStatusError (status_code : Z) (msg : string)
| TimeoutException (msg : string)
| RequestError (msg : string)
| FileNotFoundError (msg : string)
| KeyError (msg : string)
| IndexError (msg : string)
| TypeError (msg : string)
| AttributeError (msg : string)
| OtherException (msg : string).

(** [str(e)] *)
Definition str_exn (e : exn) : string :=
  match e with
  | HTTPStatusError _ msg => msg
  | TimeoutException msg => msg
  | RequestError msg => msg
  | FileNotFoundError msg => msg
  | KeyError msg => msg
  | IndexError msg => msg
  | TypeError msg => msg
  | AttributeError msg => msg
  | OtherException msg => msg
  end.

Inductive result (A : Type) : Type :=
| Ok (a : A)
| Raise (e : exn).

Arguments Ok {A} a.
Arguments Raise {A} e.

(** ** Outbound requests and the effect monad

    A computation yields the list of HTTP requests it issued, in order,
    and either a value or the exception it raised. *)

Record request : Type := {
  url : string;
  params : list (string * value)
}.

Definition M (A : Type) : Type := (list request * result A)%type.

Definition ret {A} (a : A) : M A := ([], Ok a).

Definition raise {A} (e : exn) : M A := ([], Raise e).

Definition bind {A B} (m : M A) (k : A -> M B) : M B :=
  match m with
  | (t, Ok a) => ((t ++ fst (k a))%list, snd (k a))
  | (t, Raise e) => (t, Raise e)
  end.

(** [try: body except ... : handler] where [handler] dispatches on the class. *)
Definition try_except {A} (body : M A) (handler : exn -> M A) : M A :=
  match body with
  | (t, Ok a) => (t, Ok a)
  | (t, Raise e) => ((t ++ fst (handler e))%list, snd (handler e))
  end.

Definition pure {A} (r : result A) : M A := ([], r).

Declare Scope py_scope.
Delimit Scope py_scope with py.
Notation "x <- m ;; k" := (bind m (fun x => k))
  (at level 61, m at next level, right associativity) : py_scope.
Open Scope py_scope.

(** The pure fragment: errors only. *)
Definition rbind {A B} (r : result A) (k : A -> result B) : result B :=
  match r with
  | Ok a => k a
  | Raise e => Raise e
  end.

Notation "x <~ r ;; k" := (rbind r (fun x => k))
  (at level 61, r at next level, right associativity) : py_scope.

(** ** Python operations used by the handlers *)

(** [bool(v)] *)
Definition truthy (v : value) : bool :=
  match v with
  | VNone => false
  | VBool b => b
  | VInt z => negb (z =? 0)
  | VFloat r => negb (String.eqb r "0.0" || String.eqb r "-0.0")
  | VStr s => negb (String.eqb s "")
  | VList l => match l with [] => false | _ => true end
  | VDict d => match d with [] => false | _ => true end
  end.

(** [len(v)] *)
Definition len (v : value) : result nat :=
  match v with
  | VStr s => Ok (String.length s)
  | VList l => Ok (List.length l)
  | VDict d => Ok (List.length d)
  | _ => Raise (TypeError ("object of type '" ++ type_name v ++ "' has no len()"))
  end.

Fixpoint dict_lookup (d : list (string * value)) (k : string) : option value :=
  match d with
  | [] => None
  | (k', v) :: rest => if String.eqb k' k then Some v else dict_lookup rest k
  end.

(** [d.get(k, default)] on a dictionary. *)
Definition dict_get (d : list (string * value)) (k : string) (default : value) : value :=
  match dict_lookup d k with
  | Some v => v
  | None => default
  end.

Definition chars (s : string) : list value :=
  map (fun c => VStr (String c "")) (list_ascii_of_string s).

(** [v[i]] for a literal index [i >= 0]. *)
Definition getitem_int (v : value) (i : nat) : result value :=
  match v with
  | VList l =>
      match nth_error l i with
      | Some x => Ok x
      | None => Raise (IndexError "list index out of range")
      end
  | VStr s =>
      match nth_error (chars s) i with
      | Some x => Ok x
      | None => Raise (IndexError "string index out of range")
      end
  | VDict _ => Raise (KeyError (str_int (Z.of_nat i)))
  | _ => Raise (TypeError ("'" ++ type_name v ++ "' object is not subscriptable"))
  end.

(** [v[k]] for a string key [k]. *)
Definition getitem_str (v : value) (k : string) : result value :=
  match v with
  | VDict d =>
      match dict_lookup d k with
      | Some x => Ok x
      | None => Raise (KeyError (repr_str k))
      end
  | VList _ => Raise (TypeError "list indices must be integers or slices, not str")
  | VStr _ => Raise (TypeError "string indices must be integers, not 'str'")
  | _ => Raise (TypeError ("'" ++ type_name v ++ "' object is not subscriptable"))
  end.

Definition no_attribute (v : value) (attr : string) : exn :=
  AttributeError ("'" ++ type_name v ++ "' object has no attribute '" ++ attr ++ "'").

(** [v.get(k, default)] *)
Definition method_get (v : value) (k : string) (default : value) : result value :=
  match v with
  | VDict d => Ok (dict_get d k default)
  | _ => Raise (no_attribute v "get")
  end.

(** [list(v.values())] *)
Definition method_values (v : value) : result value :=
  match v with
  | VDict d => Ok (VList (map snd d))
  | _ => Raise (no_attribute v "values")
  end.

(** [list(v.keys())] *)
Definition method_keys (v : value) : result value :=
  match v with
  | VDict d => Ok (VList (map (fun kv => VStr (fst kv)) d))
  | _ => Raise (no_attribute v "keys")
  end.

(** The items a [for] loop over [v] visits. *)
Definition iterate (v : value) : result (list value) :=
  match v with
  | VList l => Ok l
  | VStr s => Ok (chars s)
  | VDict d => Ok (map (fun kv => VStr (fst kv)) d)
  | _ => Raise (TypeError ("'" ++ type_name v ++ "' object is not iterable"))
  end.

(** [v == s] for a [str] [s]. *)
Definition eq_str (v : value) (s : string) : bool :=
  match v with
  | VStr s' => String.eqb s' s
  | _ => false
  end.

(** The code points of a [str] of the model. *)
Definition code_points (s : string) : list nat :=
  map nat_of_ascii (list_ascii_of_string s).

(** [c.upper()] for one code point below 256, as code points.  The
    letters a-z and U+00E0-U+00FE, without the division sign U+00F7,
    lose 32; U+00DF gives "SS"; the micro sign U+00B5 and U+00FF give
    U+039C and U+0178, which lie outside the range of the model; every
    other code point is left as it is. *)
Definition upper_char (c : ascii) : list nat :=
  let n := nat_of_ascii c in
  if andb (Nat.leb 97 n) (Nat.leb n 122) then [n - 32]%nat
  else if Nat.eqb n 181 then [924]%nat
  else if Nat.eqb n 223 then [83; 83]%nat
  else if andb (andb (Nat.leb 224 n) (Nat.leb n 254)) (negb (Nat.eqb n 247))
       then [n - 32]%nat
  else if Nat.eqb n 255 then [376]%nat
  else [n].

(** [s.upper()], as code points. *)
Definition upper (s : string) : list nat :=
  flat_map upper_char (list_ascii_of_string s).

(** The Error Payload [{"error": msg}]. *)
Definition error_payload (msg : string) : value := VDict [("error", VStr msg)].

(** ** The world *)

Inductive dtype : Type := String_ | Int64 | Float64 | Boolean.

(** [str(dtype)] *)
Definition str_dtype (t : dtype) : string :=
  match t with
  | String_ => "String"
  | Int64 => "Int64"
  | Float64 => "Float64"
  | Boolean => "Boolean"
  end.

(** A cell of a frame; a float is carried by the text polars prints for it. *)
Inductive cell : Type :=
| CNull
| CStr (s : string)
| CInt (z : Z)
| CFloat (text : string)
| CBool (b : bool).

Definition row : Type := list cell.

(** A [pl.DataFrame], row-wise: the schema in column order and the rows,
    each with one cell per column. *)
Record DataFrame : Type := {
  schema : list (string * dtype);
  rows : list row
}.

Record world : Type := {
  (** outcome of [client.get], [raise_for_status] and [response.json()]
      together: the decoded body, or the exception one of them raised *)
  http : request -> result value;
  (** directory of [server.py] *)
  server_dir : string;
  (** [None] when the data file does not exist, else what [pl.read_csv]
      gives for its content *)
  data_file : option (result DataFrame);
  (** the order in which the engine emits the rows kept by [unique()] *)
  engine_order : list row -> list row
}.

(** ** Private helper functions *)

Definition DATA_FILE (w : world) : string :=
  server_dir w ++ "/data/world_bank_indicators.csv".

Definition _load_data (w : world) : result DataFrame :=
  match data_file w with
  | None => Raise (FileNotFoundError ("Data file not found: " ++ DATA_FILE w))
  | Some r => r
  end.

(** One outbound GET: the request is recorded, the world answers. *)
Definition client_get_json (w : world) (rq : request) : M value := ([rq], http w rq).

Definition _fetch_rest_countries (w : world) (country_code : string) : M value :=
  let url := "https://restcountries.com/v3.1/alpha/" ++ country_code in
  body <- client_get_json w {| url := url; params := [] |} ;;
  pure (getitem_int body 0).

Definition _fetch_world_bank_indicator (w : world) (country_code indicator : string)
    (year : option Z) : M value :=
  let url := "https://api.worldbank.org/v2/country/" ++ country_code
             ++ "/indicator/" ++ indicator in
  let params := [("format", VStr "json"); ("per_page", VInt 100)] in
  let params :=
    match year with
    | Some y => if negb (y =? 0) then (params ++ [("date", VStr (str_int y))])%list else params
    | None => params
    end in
  data <- client_get_json w {| url := url; params := params |} ;;
  pure (n <~ len data ;;
        if (n <? 2)%nat then Ok (VList [])
        else d1 <~ getitem_int data 1 ;;
             if negb (truthy d1) then Ok (VList [])
             else getitem_int data 1).

(** ** Serialisation *)

Definition dquote : string := String (ascii_of_nat 34) "".
Definition backslash : string := String (ascii_of_nat 92) "".
Definition newline : string := String (ascii_of_nat 10) "".

Definition hex_digit (n : nat) : string := substring n 1 "0123456789abcdef".

(** The JSON escape of one code point.  With [ensure_ascii] every code
    point outside the printable ASCII range is written [\u00XX], as
    [json.dumps] does; without it only control characters are, as the
    polars writer does. *)
Definition escape_char (ensure_ascii : bool) (c : ascii) : string :=
  let n := nat_of_ascii c in
  if Nat.eqb n 34 then backslash ++ dquote
  else if Nat.eqb n 92 then backslash ++ backslash
  else if Nat.eqb n 10 then backslash ++ "n"
  else if Nat.eqb n 13 then backslash ++ "r"
  else if Nat.eqb n 9 then backslash ++ "t"
  else if Nat.eqb n 8 then backslash ++ "b"
  else if Nat.eqb n 12 then backslash ++ "f"
  else if orb (Nat.ltb n 32) (andb ensure_ascii (Nat.leb 127 n))
       then backslash ++ "u00" ++ hex_digit (n / 16) ++ hex_digit (n mod 16)
  else String c "".

Fixpoint escape (ensure_ascii : bool) (s : string) : string :=
  match s with
  | EmptyString => EmptyString
  | String c rest => escape_char ensure_ascii c ++ escape ensure_ascii rest
  end.

Definition json_str (ensure_ascii : bool) (s : string) : string :=
  dquote ++ escape ensure_ascii s ++ dquote.

(** [json.dumps(d)] and [json.dumps(d, indent=2)]; the server only ever
    passes a dictionary from [str] to [str]. *)
Definition json_dumps (indent : option nat) (d : list (string * string)) : string :=
  let item kv := json_str true (fst kv) ++ ": " ++ json_str true (snd kv) in
  match indent, d with
  | _, [] => "{}"
  | None, _ => "{" ++ String.concat ", " (map item d) ++ "}"
  | Some n, _ =>
      let pad := newline ++ String.concat "" (repeat " " n) in
      "{" ++ pad ++ String.concat ("," ++ pad) (map item d) ++ newline ++ "}"
  end.

Definition cell_json (c : cell) : string :=
  match c with
  | CNull => "null"
  | CStr s => json_str false s
  | CInt z => str_int z
  | CFloat text => text
  | CBool true => "true"
  | CBool false => "false"
  end.

Definition row_json (names : list string) (r : row) : string :=
  "{" ++ String.concat ","
           (map (fun nc => json_str false (fst nc) ++ ":" ++ cell_json (snd nc))
                (combine names r)) ++ "}".

(** [df.write_json()]: one object per row. *)
Definition write_json (df : DataFrame) : string :=
  "[" ++ String.concat "," (map (row_json (map fst (schema df))) (rows df)) ++ "]".

(** ** Frame operations

    Exceptions of polars' own classes are [OtherException]s; their
    message text is indicative. *)

Fixpoint column_index (name : string) (cols : list (string * dtype)) : option (nat * dtype) :=
  match cols with
  | [] => None
  | (n, t) :: rest =>
      if String.eqb n name then Some (O, t)
      else match column_index name rest with
           | Some (i, t') => Some (S i, t')
           | None => None
           end
  end.

Definition column_not_found (name : string) : exn :=
  OtherException ("unable to find column " ++ dquote ++ name ++ dquote).

Definition cell_at (i : nat) (r : row) : cell := nth i r CNull.

(** [df.select(names)] *)
Fixpoint select_columns (names : list string) (df : DataFrame)
    : result (list (nat * (string * dtype))) :=
  match names with
  | [] => Ok []
  | n :: rest =>
      match column_index n (schema df) with
      | None => Raise (column_not_found n)
      | Some (i, t) => cols <~ select_columns rest df ;; Ok ((i, (n, t)) :: cols)
      end
  end.

Definition select (names : list string) (df : DataFrame) : result DataFrame :=
  cols <~ select_columns names df ;;
  Ok {| schema := map snd cols;
        rows := map (fun r => map (fun c => cell_at (fst c) r) cols) (rows df) |}.

Definition cell_eq_dec (a b : cell) : {a = b} + {a <> b}.
Proof.
  decide equality;
    [apply string_dec | apply Z.eq_dec | apply string_dec | apply bool_dec].
Defined.

Definition row_eq_dec : forall a b : row, {a = b} + {a <> b} := list_eq_dec cell_eq_dec.

(** [df.unique()] without [maintain_order]: one copy of every distinct
    row, in the order the engine emits them. *)
Definition unique (w : world) (df : DataFrame) : DataFrame :=
  {| schema := schema df; rows := engine_order w (nodup row_eq_dec (rows df)) |}.

(** The engine may reorder rows but neither drops nor invents one. *)
Definition engine_ok (w : world) : Prop :=
  forall l, Permutation l (engine_order w l).

Fixpoint same_points (a b : list nat) : bool :=
  match a, b with
  | [], [] => true
  | x :: a', y :: b' => andb (Nat.eqb x y) (same_points a' b')
  | _, _ => false
  end.

(** The cell holds the string whose code points are [s]. *)
Definition cell_is_str (s : list nat) (c : cell) : bool :=
  match c with
  | CStr s' => same_points (code_points s') s
  | _ => false
  end.

(** [df.filter(pl.col(name) == s)] for the code points [s] of a [str].
    The column has to exist; a numeric column cannot be compared with a
    string; a Boolean column holds no string, so no row is kept. *)
Definition filter_eq_str (name : string) (s : list nat) (df : DataFrame)
    : result DataFrame :=
  match column_index name (schema df) with
  | None => Raise (column_not_found name)
  | Some (i, String_) =>
      Ok {| schema := schema df;
            rows := filter (fun r => cell_is_str s (cell_at i r)) (rows df) |}
  | Some (_, Boolean) => Ok {| schema := schema df; rows := [] |}
  | Some (_, t) =>
      Raise (OtherException ("cannot compare string with numeric type "
                             ++ str_dtype t))
  end.

(** [df.is_empty()] *)
Definition is_empty (df : DataFrame) : bool :=
  match rows df with
  | [] => true
  | _ => false
  end.

Definition rcatch {A} (body : result A) (handler : exn -> result A) : result A :=
  match body with
  | Ok a => Ok a
  | Raise e => handler e
  end.

(** ** Part 1: resources (local data) *)

Definition get_schema (w : world) : result string :=
  df <~ _load_data w ;;
  let schema_info := map (fun ct => (fst ct, str_dtype (snd ct))) (schema df) in
  Ok (json_dumps (Some 2%nat) schema_info).

Definition get_countries (w : world) : result string :=
  rcatch
    (df <~ _load_data w ;;
     result <~ select ["countryiso3code"; "country"] df ;;
     Ok (write_json (unique w result)))
    (fun e =>
       match e with
       | FileNotFoundError _ => Ok (json_dumps None [("error", str_exn e)])
       | _ => Ok (json_dumps None [("error", "Failed to load countries: " ++ str_exn e)])
       end).

Definition get_country_indicators (w : world) (country_code : string) : result string :=
  rcatch
    (df <~ _load_data w ;;
     filtered <~ filter_eq_str "countryiso3code" (upper country_code) df ;;
     if is_empty filtered
     then Ok (json_dumps None
                [("error", "Country code '" ++ country_code
                           ++ "' not found in local dataset")])
     else Ok (write_json filtered))
    (fun e =>
       match e with
       | FileNotFoundError _ => Ok (json_dumps None [("error", str_exn e)])
       | _ => Ok (json_dumps None [("error", "Failed to fetch indicators: " ++ str_exn e)])
       end).

(** ** Part 2: tools (external APIs) *)

Definition get_country_info (w : world) (country_code : string) : M value :=
  try_except
    (data <- _fetch_rest_countries w country_code ;;
     pure (name <~ (n <~ getitem_str data "name" ;; getitem_str n "common") ;;
           capital <~ (c <~ method_get data "capital" (VList [VStr "N/A"]) ;;
                       getitem_int c 0) ;;
           region <~ method_get data "region" (VStr "N/A") ;;
           subregion <~ method_get data "subregion" (VStr "N/A") ;;
           languages <~ (l <~ method_get data "languages" (VDict []) ;;
                         method_values l) ;;
           currencies <~ (c <~ method_get data "currencies" (VDict []) ;;
                          method_keys c) ;;
           population <~ method_get data "population" (VInt 0) ;;
           flag <~ method_get data "flag" (VStr "") ;;
           Ok (VDict [("name", name);
                      ("capital", capital);
                      ("region", region);
                      ("subregion", subregion);
                      ("languages", languages);
                      ("currencies", currencies);
                      ("population", population);
                      ("flag", flag)])))
    (fun e =>
       match e with
       | HTTPStatusError status_code _ =>
           if status_code =? 404
           then ret (error_payload ("Country code '" ++ country_code ++ "' not found"))
           else ret (error_payload ("API error (" ++ str_int status_code ++ "): "
                                    ++ str_exn e))
       | TimeoutException _ =>
           ret (error_payload "Request timed out, please try again")
       | RequestError _ =>
           ret (error_payload ("Network error: " ++ str_exn e))
       | _ =>
           ret (error_payload ("Unexpected error: " ++ str_exn e))
       end).

(** The [for record in records] loop of [get_live_indicator] together
    with the two statements after it. *)
Fixpoint scan_records (country_code indicator : string) (year : Z)
    (records : list value) : result value :=
  match records with
  | [] =>
      Ok (error_payload ("No data found for " ++ country_code ++ " / " ++ indicator
                         ++ " in " ++ str_int year))
  | record :: rest =>
      date <~ method_get record "date" VNone ;;
      if eq_str date (str_int year)
      then
        country_name <~ (c <~ method_get record "country" (VDict []) ;;
                         method_get c "value" (VStr "N/A")) ;;
        indicator_name <~ (i <~ method_get record "indicator" (VDict []) ;;
                           method_get i "value" (VStr "N/A")) ;;
        v <~ method_get record "value" VNone ;;
        Ok (VDict [("country", VStr country_code);
                   ("country_name", country_name);
                   ("indicator", VStr indicator);
                   ("indicator_name", indicator_name);
                   ("year", VInt year);
                   ("value", v)])
      else scan_records country_code indicator year rest
  end.

(** [year] defaults to 2022 at the call boundary. *)
Definition get_live_indicator (w : world) (country_code indicator : string) (year : Z)
    : M value :=
  try_except
    (records <- _fetch_world_bank_indicator w country_code indicator (Some year) ;;
     if negb (truthy records)
     then ret (error_payload ("No data available for " ++ country_code ++ " / "
                              ++ indicator ++ " in " ++ str_int year))
     else pure (items <~ iterate records ;;
                scan_records country_code indicator year items))
    (fun e =>
       match e with
       | HTTPStatusError status_code _ =>
           if status_code =? 404
           then ret (error_payload ("Country '" ++ country_code ++ "' or indicator '"
                                    ++ indicator ++ "' not found"))
           else ret (error_payload ("API error (" ++ str_int status_code ++ "): "
                                    ++ str_exn e))
       | TimeoutException _ =>
           ret (error_payload "Request timed out, please try again")
       | RequestError _ =>
           ret (error_payload ("Network error: " ++ str_exn e))
       | _ =>
           ret (error_payload ("Unexpected error: " ++ str_exn e))
       end).

(** The record [compare_countries] appends when the lookup of [code] raised [e]. *)
Definition partial_record (code indicator : string) (year : Z) (e : exn) : value :=
  VDict [("country", VStr code);
         ("indicator", VStr indicator);
         ("year", VInt year);
         ("value", VNone);
         ("error", VStr (str_exn e))].

(** [compare_countries] with the global [get_live_indicator] it calls
    made a parameter, so that a lookup that raises can be put in. *)
Definition compare_countries_with (lookup : string -> string -> Z -> M value)
    (country_codes : list string) (indicator : string) (year : Z) : M (list value) :=
  match country_codes with
  | [] => ret [error_payload "No country codes provided"]
  | _ =>
      fold_left
        (fun acc code =>
           results <- acc ;;
           entry <- try_except (lookup code indicator year)
                      (fun e => ret (partial_record code indicator year e)) ;;
           ret (results ++ [entry])%list)
        country_codes (ret [])
  end.

Definition compare_countries (w : world) : list string -> string -> Z -> M (list value) :=
  compare_countries_with (get_live_indicator w).

(** ** Vocabulary of the statements *)

(** The request [_fetch_rest_countries] issues. *)
Definition countries_request (country_code : string) : request :=
  {| url := "https://restcountries.com/v3.1/alpha/" ++ country_code; params := [] |}.

(** The request [_fetch_world_bank_indicator] issues for a given year. *)
Definition indicator_request (country_code indicator : string) (year : Z) : request :=
  {| url := "https://api.worldbank.org/v2/country/" ++ country_code
            ++ "/indicator/" ++ indicator;
     params := [("format", VStr "json"); ("per_page", VInt 100)]
               ++ (if year =? 0 then [] else [("date", VStr (str_int year))]) |}.

(** The five failure classes of the specification. *)
Inductive failure_kind : Type :=
| NotFound
| ApiError
| TimedOut
| NetworkError
| Unexpected.

Definition failure_kind_of (e : exn) : failure_kind :=
  match e with
  | HTTPStatusError status_code _ => if status_code =? 404 then NotFound else ApiError
  | TimeoutException _ => TimedOut
  | RequestError _ => NetworkError
  | _ => Unexpected
  end.

(** A record the scan of [get_live_indicator] passes over: an object
    whose [date] is not the requested year. *)
Definition other_year (year : Z) (record : value) : Prop :=
  exists d, record = VDict d /\ eq_str (dict_get d "date" VNone) (str_int year) = false.

(** The keys of a dictionary, in insertion order. *)
Definition keys (v : value) : list string :=
  match v with
  | VDict d => map fst d
  | _ => []
  end.

(** The classes raised by subscripting, method lookup, [len] and
    iteration on a decoded body. *)
Definition reshaping_fault (e : exn) : bool :=
  match e with
  | KeyError _ | IndexError _ | TypeError _ | AttributeError _ => true
  | _ => false
  end.

(** [r] returns a value that satisfies [P] or raises an exception that
    satisfies [Q]. *)
Definition result_sat {A} (P : A -> Prop) (Q : exn -> Prop) (r : result A) : Prop :=
  match r with
  | Ok a => P a
  | Raise e => Q e
  end.

(** ** Sample data for the concrete runs *)

Module Samples.

Definition store : DataFrame :=
  {| schema := [("countryiso3code", String_); ("country", String_);
                ("year", Int64); ("gdp_per_capita", Float64)];
     rows := [[CStr "USA"; CStr "United States"; CInt 2022; CFloat "76329.58"];
              [CStr "CHN"; CStr "China"; CInt 2022; CNull];
              [CStr "USA"; CStr "United States"; CInt 2021; CFloat "70219.47"]] |}.

(** A world whose upstream always answers [answer]. *)
Definition world_with (answer : result value) (file : option (result DataFrame))
    (order : list row -> list row) : world :=
  {| http := fun _ => answer;
     server_dir := "/srv/lab";
     data_file := file;
     engine_order := order |}.

Definition offline : result value := Raise (RequestError "All connection attempts failed").

Definition w_store : world := world_with offline (Some (Ok store)) (fun l => l).

Definition w_store_rev : world := world_with offline (Some (Ok store)) (@rev row).

Definition w_no_file : world := world_with offline None (fun l => l).

(** A lookup that raises for the code ["B"]. *)
Definition flaky_lookup (code indicator : string) (year : Z) : M value :=
  ([{| url := code; params := [] |}],
   if String.eqb code "B" then Raise (KeyError "'boom'") else Ok (VDict [("country", VStr code)])).

Definition france : value :=
  VDict [("name", VDict [("common", VStr "France"); ("official", VStr "French Republic")]);
         ("capital", VList [VStr "Paris"]);
         ("region", VStr "Europe");
         ("languages", VDict [("fra", VStr "French")]);
         ("currencies", VDict [("EUR", VDict [("name", VStr "Euro")])]);
         ("population", VInt 67391582)].

Definition gdp_record (date : string) (v : value) : value :=
  VDict [("indicator", VDict [("id", VStr "NY.GDP.PCAP.CD");
                              ("value", VStr "GDP per capita (current US$)")]);
         ("country", VDict [("id", VStr "FR"); ("value", VStr "France")]);
         ("date", VStr date);
         ("value", v)].

Definition envelope (records : value) : value :=
  VList [VDict [("page", VInt 1); ("pages", VInt 1)]; records].

(** [s] between double quotes. *)
Definition q (s : string) : string := dquote ++ s ++ dquote.

End Samples.

(** A store and codes with letters outside ASCII. *)
Module Latin1.

(** U+00E9, U+00C9, U+00DF and U+00B5 as one-character strings. *)
Definition e_acute : string := String (ascii_of_nat 233) "".
Definition E_acute : string := String (ascii_of_nat 201) "".
Definition sharp_s : string := String (ascii_of_nat 223) "".
Definition micro : string := String (ascii_of_nat 181) "".

Definition store : DataFrame :=
  {| schema := [("countryiso3code", String_); ("country", String_)];
     rows := [[CStr E_acute; CStr "Upper"];
              [CStr sharp_s; CStr "Sharp"];
              [CStr "SS"; CStr "Double"];
              [CStr micro; CStr "Micro"]] |}.

Definition w_store : world :=
  Samples.world_with Samples.offline (Some (Ok store)) (fun l => l).

End Latin1.

(** * Properties *)

(** ** Reasoning about the monad *)

Lemma bind_ret_l {A B} (a : A) (k : A -> M B) : bind (ret a) k = k a.
Proof. unfold bind, ret. cbn. now destruct (k a). Qed.

Lemma bind_ret_r {A} (m : M A) : bind m ret = m.
Proof. destruct m as [t [a | e]]; cbn; [now rewrite app_nil_r | reflexivity]. Qed.

Lemma bind_assoc {A B C} (m : M A) (k : A -> M B) (k' : B -> M C) :
  bind (bind m k) k' = bind m (fun a => bind (k a) k').
Proof.
  destruct m as [t [a | e]]; cbn; [| reflexivity].
  destruct (k a) as [t' [b | e]]; cbn; [| reflexivity].
  now rewrite app_assoc.
Qed.

(** ** compare_countries *)

Section Compare.

Variable lookup : string -> string -> Z -> M value.
Variables (indicator : string) (year : Z).

(** What one pass of the loop body appends for [code]. *)
Let entry (code : string) : value :=
  match snd (lookup code indicator year) with
  | Ok r => r
  | Raise e => partial_record code indicator year e
  end.

Let step (acc : M (list value)) (code : string) : M (list value) :=
  results <- acc ;;
  entry <- try_except (lookup code indicator year)
             (fun e => ret (partial_record code indicator year e)) ;;
  ret (results ++ [entry])%list.

Lemma step_ok t results code :
  step (t, Ok results) code
  = ((t ++ fst (lookup code indicator year))%list, Ok (results ++ [entry code])%list).
Proof.
  unfold step, entry.
  destruct (lookup code indicator year) as [tc [r | e]]; cbn;
    rewrite ?app_nil_r; reflexivity.
Qed.

Lemma loop_spec codes : forall t results,
  fold_left step codes (t, Ok results)
  = ((t ++ flat_map (fun code => fst (lookup code indicator year)) codes)%list,
     Ok (results ++ map entry codes)%list).
Proof.
  induction codes as [| code codes IH]; intros t results.
  - cbn. now rewrite !app_nil_r.
  - cbn [fold_left flat_map map]. rewrite step_ok, IH.
    now rewrite <- !app_assoc.
Qed.

Lemma compare_countries_with_nonempty codes :
  codes <> [] ->
  compare_countries_with lookup codes indicator year
  = (flat_map (fun code => fst (lookup code indicator year)) codes,
     Ok (map entry codes)).
Proof.
  intros Hne. unfold compare_countries_with.
  destruct codes as [| c cs]; [contradiction |].
  exact (loop_spec (c :: cs) [] []).
Qed.

End Compare.

(** C1.  For a non-empty list of codes the tool issues the lookups of
    every code, in order, and returns one entry per code, in order: the
    lookup's own result, or, when the lookup raised, the partial record
    with [country], [indicator], [year], [value: null] and [error].  A
    raising lookup does not stop the later ones. *)
Theorem compare_countries_one_entry_per_code
    (lookup : string -> string -> Z -> M value)
    (country_codes : list string) (indicator : string) (year : Z) :
  country_codes <> [] ->
  exists results,
    compare_countries_with lookup country_codes indicator year
    = (flat_map (fun code => fst (lookup code indicator year)) country_codes, Ok results)
    /\ length results = length country_codes
    /\ forall i code,
         nth_error country_codes i = Some code ->
         nth_error results i
         = Some (match snd (lookup code indicator year) with
                 | Ok r => r
                 | Raise e =>
                     VDict [("country", VStr code); ("indicator", VStr indicator);
                            ("year", VInt year); ("value", VNone);
                            ("error", VStr (str_exn e))]
                 end).
Proof.
  intros Hne. eexists. split; [| split].
  - apply compare_countries_with_nonempty, Hne.
  - apply length_map.
  - intros i code Hi. rewrite nth_error_map, Hi. reflexivity.
Qed.

Lemma compare_countries_one_entry_per_code_witness :
  (exists results,
     compare_countries_with Samples.flaky_lookup ["A"; "B"; "C"] "SP.POP.TOTL" 2022
     = ([{| url := "A"; params := [] |}; {| url := "B"; params := [] |};
         {| url := "C"; params := [] |}], Ok results)
     /\ length results = 3%nat
     /\ nth_error results 1
        = Some (VDict [("country", VStr "B"); ("indicator", VStr "SP.POP.TOTL");
                       ("year", VInt 2022); ("value", VNone);
                       ("error", VStr "'boom'")])
     /\ nth_error results 2 = Some (VDict [("country", VStr "C")]))
  /\ (exists results,
        snd (compare_countries Samples.w_store ["USA"; "XYZ"] "NY.GDP.PCAP.CD" 2022)
        = Ok results
        /\ length results = 2%nat).
Proof.
  split.
  - destruct (compare_countries_one_entry_per_code Samples.flaky_lookup
                ["A"; "B"; "C"] "SP.POP.TOTL" 2022) as [results [Hrun [Hlen Hnth]]].
    + discriminate.
    + exists results. split; [exact Hrun |]. split; [exact Hlen |]. split.
      * exact (Hnth 1%nat "B" eq_refl).
      * exact (Hnth 2%nat "C" eq_refl).
  - destruct (compare_countries_one_entry_per_code (get_live_indicator Samples.w_store)
                ["USA"; "XYZ"] "NY.GDP.PCAP.CD" 2022) as [results [Hrun [Hlen _]]].
    + discriminate.
    + exists results. split; [exact (f_equal snd Hrun) | exact Hlen].
Defined.

(** C2.  On the empty list the tool returns exactly
    [[{"error": "No country codes provided"}]] and issues no request,
    whatever the per-country lookup would do. *)
Theorem compare_countries_empty
    (lookup : string -> string -> Z -> M value) (indicator : string) (year : Z) :
  compare_countries_with lookup [] indicator year
  = ([], Ok [VDict [("error", VStr "No country codes provided")]])
  /\ forall w, compare_countries w [] indicator year
               = ([], Ok [VDict [("error", VStr "No country codes provided")]]).
Proof. split; [| intros w]; reflexivity. Qed.

(** ** The resources *)

Lemma same_points_true a b : same_points a b = true <-> a = b.
Proof.
  revert b. induction a as [| x a IH]; intros [| y b]; cbn;
    try (split; [discriminate | intros H; discriminate H]).
  - split; reflexivity.
  - rewrite andb_true_iff, Nat.eqb_eq, IH.
    split; [intros [-> ->]; reflexivity | intros [= -> ->]; split; reflexivity].
Qed.

Lemma cell_is_str_true s c :
  cell_is_str s c = true <-> exists s', c = CStr s' /\ code_points s' = s.
Proof.
  destruct c; cbn;
    try (split; [discriminate | intros [s' [H _]]; discriminate H]).
  rewrite same_points_true. split.
  - intros H. now exists s0.
  - intros [s' [[= ->] H]]. exact H.
Qed.

Lemma filter_nil_when_none {A} (f : A -> bool) (l : list A) :
  (forall x, In x l -> f x = false) -> filter f l = [].
Proof.
  induction l as [| x l IH]; intros H; [reflexivity |].
  cbn. rewrite (H x (or_introl eq_refl)). apply IH.
  intros y Hy. apply H. now right.
Qed.

Lemma load_data_same w1 w2 :
  data_file w1 = data_file w2 -> server_dir w1 = server_dir w2 ->
  _load_data w1 = _load_data w2.
Proof.
  intros Hf Hd. unfold _load_data, DATA_FILE. now rewrite Hf, Hd.
Qed.

Lemma engine_ok_id w : engine_order w = (fun l => l) -> engine_ok w.
Proof. intros H l. rewrite H. apply Permutation_refl. Qed.

Lemma engine_ok_rev w : engine_order w = @rev row -> engine_ok w.
Proof. intros H l. rewrite H. apply Permutation_rev. Qed.

(** C3, as stated, fails: with the same data file, two runs in which the
    engine emits the distinct rows in different orders give different
    JSON for the countries resource. *)
Lemma countries_order_not_fixed :
  data_file Samples.w_store = data_file Samples.w_store_rev
  /\ server_dir Samples.w_store = server_dir Samples.w_store_rev
  /\ engine_ok Samples.w_store
  /\ engine_ok Samples.w_store_rev
  /\ get_countries Samples.w_store
     = Ok (write_json {| schema := [("countryiso3code", String_); ("country", String_)];
                         rows := [[CStr "CHN"; CStr "China"];
                                  [CStr "USA"; CStr "United States"]] |})
  /\ get_countries Samples.w_store_rev
     = Ok (write_json {| schema := [("countryiso3code", String_); ("country", String_)];
                         rows := [[CStr "USA"; CStr "United States"];
                                  [CStr "CHN"; CStr "China"]] |})
  /\ get_countries Samples.w_store <> get_countries Samples.w_store_rev.
Proof.
  repeat split.
  - now apply engine_ok_id.
  - now apply engine_ok_rev.
  - intros H. vm_compute in H. discriminate H.
Qed.

(** C3, amended.  For a fixed content of the data file the schema
    resource returns the same string on every call.  The countries
    resource returns the same error payload on every call when loading
    or column selection fails; otherwise every call returns the JSON of
    a frame with the same two columns and the same distinct rows, each
    once, in the order the engine emitted them, so that two calls agree
    up to the order of the rows, and agree exactly when the engine
    emitted the same order. *)
Theorem resources_determined_by_file (w1 w2 : world) :
  data_file w1 = data_file w2 ->
  server_dir w1 = server_dir w2 ->
  engine_ok w1 ->
  engine_ok w2 ->
  get_schema w1 = get_schema w2
  /\ (engine_order w1 = engine_order w2 -> get_countries w1 = get_countries w2)
  /\ match (df <~ _load_data w1 ;; select ["countryiso3code"; "country"] df) with
     | Ok sel =>
         exists rows1 rows2,
           get_countries w1 = Ok (write_json {| schema := schema sel; rows := rows1 |})
           /\ get_countries w2 = Ok (write_json {| schema := schema sel; rows := rows2 |})
           /\ Permutation rows1 rows2
           /\ NoDup rows1
           /\ forall r, In r rows1 <-> In r (rows sel)
     | Raise _ => get_countries w1 = get_countries w2
     end.
Proof.
  intros Hf Hd Hok1 Hok2.
  pose proof (load_data_same w1 w2 Hf Hd) as Hload.
  unfold get_schema, get_countries. rewrite <- Hload.
  split; [reflexivity |]. split.
  - intros Ho. unfold unique. now rewrite Ho.
  - destruct (_load_data w1) as [df | e]; cbn [rbind rcatch]; [| reflexivity].
    destruct (select ["countryiso3code"; "country"] df) as [sel | e];
      cbn [rbind rcatch]; [| reflexivity].
    exists (engine_order w1 (nodup row_eq_dec (rows sel))),
           (engine_order w2 (nodup row_eq_dec (rows sel))).
    repeat split.
    + eapply Permutation_trans; [apply Permutation_sym, Hok1 | apply Hok2].
    + eapply Permutation_NoDup; [apply Hok1 | apply NoDup_nodup].
    + intros Hin. apply (nodup_In row_eq_dec).
      eapply Permutation_in; [apply Permutation_sym, Hok1 | exact Hin].
    + intros Hin. eapply Permutation_in; [apply Hok1 |].
      now apply nodup_In.
Qed.

Lemma resources_determined_by_file_witness :
  get_schema Samples.w_store = get_schema Samples.w_store_rev
  /\ exists rows1 rows2,
       get_countries Samples.w_store
       = Ok (write_json {| schema := [("countryiso3code", String_); ("country", String_)];
                           rows := rows1 |})
       /\ get_countries Samples.w_store_rev
          = Ok (write_json {| schema := [("countryiso3code", String_); ("country", String_)];
                              rows := rows2 |})
       /\ Permutation rows1 rows2.
Proof.
  destruct (resources_determined_by_file Samples.w_store Samples.w_store_rev)
    as [Hs [_ Hc]].
  - reflexivity.
  - reflexivity.
  - intros l. apply Permutation_refl.
  - intros l. apply Permutation_rev.
  - split; [exact Hs |].
    destruct Hc as [rows1 [rows2 [H1 [H2 [Hp _]]]]].
    exists rows1, rows2. repeat split; assumption.
Defined.

(** C4.  When the upper-cased code occurs in the store's code column,
    the indicators resource returns the JSON of a non-empty frame made
    of exactly the rows whose code cell equals the upper-cased code. *)
Theorem indicators_for_known_code (w : world) (country_code : string)
    (df : DataFrame) (i : nat) :
  _load_data w = Ok df ->
  column_index "countryiso3code" (schema df) = Some (i, String_) ->
  (exists r s,
     In r (rows df) /\ cell_at i r = CStr s /\ code_points s = upper country_code) ->
  exists kept,
    get_country_indicators w country_code
    = Ok (write_json {| schema := schema df; rows := kept |})
    /\ kept <> []
    /\ (forall r, In r kept ->
                  exists s, cell_at i r = CStr s
                            /\ code_points s = upper country_code)
    /\ (forall r, In r kept <->
                  In r (rows df)
                  /\ exists s, cell_at i r = CStr s
                               /\ code_points s = upper country_code).
Proof.
  intros Hload Hcol [r0 [s0 [Hin0 [Hcell0 Hpoints0]]]].
  set (keep := fun r => cell_is_str (upper country_code) (cell_at i r)).
  assert (Hkept : forall r, In r (filter keep (rows df)) <->
                            In r (rows df)
                            /\ exists s, cell_at i r = CStr s
                                         /\ code_points s = upper country_code).
  { intros r. rewrite filter_In. unfold keep. now rewrite cell_is_str_true. }
  assert (Hne : filter keep (rows df) <> []).
  { intros Hnil. assert (Hin : In r0 (filter keep (rows df))).
    { apply Hkept. split; [exact Hin0 | now exists s0]. }
    rewrite Hnil in Hin. exact Hin. }
  exists (filter keep (rows df)). split; [| split; [exact Hne | split]].
  - unfold get_country_indicators, filter_eq_str.
    rewrite Hload. cbn [rbind]. rewrite Hcol. cbn [rbind].
    fold keep.
    destruct (is_empty {| schema := schema df; rows := filter keep (rows df) |}) eqn:He.
    + unfold is_empty in He. cbn in He.
      destruct (filter keep (rows df)); [now elim Hne | discriminate He].
    + reflexivity.
  - intros r Hr. now apply Hkept.
  - exact Hkept.
Qed.

Lemma indicators_for_known_code_witness :
  (exists kept,
     get_country_indicators Samples.w_store "usa"
     = Ok (write_json {| schema := schema Samples.store; rows := kept |})
     /\ kept <> []
     /\ (forall r, In r kept ->
                   exists s, cell_at 0 r = CStr s /\ code_points s = upper "usa"))
  /\ (exists kept,
        get_country_indicators Latin1.w_store Latin1.e_acute
        = Ok (write_json {| schema := schema Latin1.store; rows := kept |})
        /\ forall r, In r kept <->
                     In r (rows Latin1.store)
                     /\ exists s, cell_at 0 r = CStr s
                                  /\ code_points s = upper Latin1.e_acute)
  /\ (exists kept,
        get_country_indicators Latin1.w_store Latin1.sharp_s
        = Ok (write_json {| schema := schema Latin1.store; rows := kept |})
        /\ forall r, In r kept <->
                     In r (rows Latin1.store)
                     /\ exists s, cell_at 0 r = CStr s
                                  /\ code_points s = upper Latin1.sharp_s).
Proof.
  split; [| split].
  - destruct (indicators_for_known_code Samples.w_store "usa" Samples.store 0)
      as [kept [Hrun [Hne [Hall _]]]].
    + reflexivity.
    + reflexivity.
    + exists [CStr "USA"; CStr "United States"; CInt 2022; CFloat "76329.58"], "USA".
      split; [left; reflexivity | split; reflexivity].
    + exists kept. split; [exact Hrun |]. split; [exact Hne | exact Hall].
  - destruct (indicators_for_known_code Latin1.w_store Latin1.e_acute Latin1.store 0)
      as [kept [Hrun [_ [_ Hiff]]]].
    + reflexivity.
    + reflexivity.
    + exists [CStr Latin1.E_acute; CStr "Upper"], Latin1.E_acute.
      split; [left; reflexivity | split; reflexivity].
    + exists kept. split; [exact Hrun | exact Hiff].
  - destruct (indicators_for_known_code Latin1.w_store Latin1.sharp_s Latin1.store 0)
      as [kept [Hrun [_ [_ Hiff]]]].
    + reflexivity.
    + reflexivity.
    + exists [CStr "SS"; CStr "Double"], "SS".
      split; [right; right; left; reflexivity | split; reflexivity].
    + exists kept. split; [exact Hrun | exact Hiff].
Defined.

(** C5.  When no row of the store carries the upper-cased code, the
    indicators resource returns exactly the JSON object
    [{"error": "Country code '<code>' not found in local dataset"}],
    with the code as the caller gave it. *)
Theorem indicators_for_unknown_code (w : world) (country_code : string)
    (df : DataFrame) (i : nat) :
  _load_data w = Ok df ->
  column_index "countryiso3code" (schema df) = Some (i, String_) ->
  (forall r s, In r (rows df) -> cell_at i r = CStr s ->
               code_points s <> upper country_code) ->
  get_country_indicators w country_code
  = Ok (json_dumps None
          [("error", "Country code '" ++ country_code ++ "' not found in local dataset")]).
Proof.
  intros Hload Hcol Hnone.
  unfold get_country_indicators, filter_eq_str.
  rewrite Hload. cbn [rbind]. rewrite Hcol. cbn [rbind].
  rewrite filter_nil_when_none; [reflexivity |].
  intros r Hr. destruct (cell_is_str (upper country_code) (cell_at i r)) eqn:Hc;
    [| reflexivity].
  apply cell_is_str_true in Hc. destruct Hc as [s [Hcell Hpoints]].
  now elim (Hnone r s Hr Hcell).
Qed.

Lemma indicators_for_unknown_code_witness :
  get_country_indicators Samples.w_store "Usa1"
  = Ok ("{" ++ dquote ++ "error" ++ dquote ++ ": " ++ dquote
        ++ "Country code 'Usa1' not found in local dataset" ++ dquote ++ "}")
  /\ get_country_indicators Latin1.w_store Latin1.micro
     = Ok ("{" ++ dquote ++ "error" ++ dquote ++ ": " ++ dquote
           ++ "Country code '" ++ backslash ++ "u00b5' not found in local dataset"
           ++ dquote ++ "}").
Proof.
  split.
  - rewrite (indicators_for_unknown_code Samples.w_store "Usa1" Samples.store 0).
    + reflexivity.
    + reflexivity.
    + reflexivity.
    + intros r s Hr Hcell. cbn in Hr.
      destruct Hr as [<- | [<- | [<- | []]]]; injection Hcell as <-; discriminate.
  - rewrite (indicators_for_unknown_code Latin1.w_store Latin1.micro Latin1.store 0).
    + reflexivity.
    + reflexivity.
    + reflexivity.
    + intros r s Hr Hcell. cbn in Hr.
      destruct Hr as [<- | [<- | [<- | [<- | []]]]]; injection Hcell as <-; discriminate.
Defined.

(** ** The tools: what a call issues and when it fails *)

Lemma fetch_rest_countries_run w country_code :
  _fetch_rest_countries w country_code
  = ([countries_request country_code],
     body <~ http w (countries_request country_code) ;; getitem_int body 0).
Proof.
  unfold _fetch_rest_countries, client_get_json, countries_request, bind, pure.
  destruct (http w _); reflexivity.
Qed.

Lemma fetch_indicator_request w country_code indicator year :
  fst (_fetch_world_bank_indicator w country_code indicator (Some year))
  = [indicator_request country_code indicator year]
  /\ (forall e, http w (indicator_request country_code indicator year) = Raise e ->
        snd (_fetch_world_bank_indicator w country_code indicator (Some year)) = Raise e).
Proof.
  unfold _fetch_world_bank_indicator, client_get_json, indicator_request, bind, pure.
  destruct (year =? 0); cbn [negb app];
    (split; [destruct (http w _); reflexivity | intros e ->; reflexivity]).
Qed.

Lemma fetch_indicator_ok w country_code indicator year data :
  http w (indicator_request country_code indicator year) = Ok data ->
  _fetch_world_bank_indicator w country_code indicator (Some year)
  = ([indicator_request country_code indicator year],
     n <~ len data ;;
     if (n <? 2)%nat then Ok (VList [])
     else d1 <~ getitem_int data 1 ;;
          if negb (truthy d1) then Ok (VList []) else getitem_int data 1).
Proof.
  unfold _fetch_world_bank_indicator, client_get_json, indicator_request, bind, pure.
  destruct (year =? 0); cbn [negb app]; intros ->; reflexivity.
Qed.

(** A [try] whose handlers all return yields a value, and the requests
    are those of the body. *)
Lemma try_except_returns {A} (body : M A) (handler : exn -> M A) :
  (forall e, exists a, handler e = ([], Ok a)) ->
  exists a, try_except body handler = (fst body, Ok a).
Proof.
  intros Hh. destruct body as [t [a | e]]; cbn.
  - now exists a.
  - destruct (Hh e) as [a Ha]. exists a. rewrite Ha. cbn. now rewrite app_nil_r.
Qed.

Lemma get_country_info_returns w country_code :
  exists payload,
    get_country_info w country_code = ([countries_request country_code], Ok payload).
Proof.
  unfold get_country_info. rewrite fetch_rest_countries_run.
  match goal with
  | |- exists _, try_except ?b ?h = _ =>
      destruct (try_except_returns b h) as [v Hv]
  end.
  - intros e. destruct e; try (eexists; reflexivity).
    destruct (status_code =? 404); eexists; reflexivity.
  - exists v. rewrite Hv. f_equal.
    unfold bind, pure.
    destruct (body <~ http w (countries_request country_code) ;; getitem_int body 0);
      reflexivity.
Qed.

Lemma get_live_indicator_returns w country_code indicator year :
  exists payload,
    get_live_indicator w country_code indicator year
    = ([indicator_request country_code indicator year], Ok payload).
Proof.
  unfold get_live_indicator.
  match goal with
  | |- exists _, try_except ?b ?h = _ =>
      destruct (try_except_returns b h) as [v Hv]
  end.
  - intros e. destruct e; try (eexists; reflexivity).
    destruct (status_code =? 404); eexists; reflexivity.
  - exists v. rewrite Hv. f_equal.
    destruct (fetch_indicator_request w country_code indicator year) as [Hreq _].
    destruct (_fetch_world_bank_indicator w country_code indicator (Some year))
      as [t [records | e]]; cbn in Hreq; subst t; cbn; [| reflexivity].
    destruct (truthy records); reflexivity.
Qed.

Lemma get_country_info_failure w country_code e :
  http w (countries_request country_code) = Raise e ->
  get_country_info w country_code
  = ([countries_request country_code],
     Ok (error_payload
           match e with
           | HTTPStatusError status m =>
               if status =? 404
               then "Country code '" ++ country_code ++ "' not found"
               else "API error (" ++ str_int status ++ "): " ++ m
           | TimeoutException _ => "Request timed out, please try again"
           | RequestError m => "Network error: " ++ m
           | _ => "Unexpected error: " ++ str_exn e
           end)).
Proof.
  intros He. unfold get_country_info. rewrite fetch_rest_countries_run, He.
  destruct e; try reflexivity.
  cbn. destruct (status_code =? 404); reflexivity.
Qed.

Lemma get_live_indicator_failure w country_code indicator year e :
  http w (indicator_request country_code indicator year) = Raise e ->
  get_live_indicator w country_code indicator year
  = ([indicator_request country_code indicator year],
     Ok (error_payload
           match e with
           | HTTPStatusError status m =>
               if status =? 404
               then "Country '" ++ country_code ++ "' or indicator '" ++ indicator
                    ++ "' not found"
               else "API error (" ++ str_int status ++ "): " ++ m
           | TimeoutException _ => "Request timed out, please try again"
           | RequestError m => "Network error: " ++ m
           | _ => "Unexpected error: " ++ str_exn e
           end)).
Proof.
  intros He. unfold get_live_indicator.
  destruct (fetch_indicator_request w country_code indicator year) as [Hreq Hfail].
  specialize (Hfail e He).
  destruct (_fetch_world_bank_indicator w country_code indicator (Some year))
    as [t r]. cbn in Hreq, Hfail. subst t r.
  destruct e; try reflexivity.
  cbn. destruct (status_code =? 404); reflexivity.
Qed.

Lemma failure_messages_differ (e1 e2 : exn) (not_found1 not_found2 rest1 rest2 : string) :
  failure_kind_of e1 <> failure_kind_of e2 ->
  match e1 with
  | HTTPStatusError status m =>
      if status =? 404 then "Country" ++ not_found1
      else "API error (" ++ str_int status ++ "): " ++ m
  | TimeoutException _ => "Request timed out, please try again"
  | RequestError m => "Network error: " ++ m
  | _ => "Unexpected error: " ++ rest1
  end
  <>
  match e2 with
  | HTTPStatusError status m =>
      if status =? 404 then "Country" ++ not_found2
      else "API error (" ++ str_int status ++ "): " ++ m
  | TimeoutException _ => "Request timed out, please try again"
  | RequestError m => "Network error: " ++ m
  | _ => "Unexpected error: " ++ rest2
  end.
Proof.
  destruct e1, e2; cbn;
    repeat match goal with
           | |- context [?s =? 404] => destruct (s =? 404)
           end;
    cbn; intros Hk; try (now elim Hk); discriminate.
Qed.

(** C6.  Whatever failure the single outbound call of [get_country_info]
    or [get_live_indicator] ends in, the tool issues that one request
    and returns an Error Payload, never an exception: status 404 gives
    the "not found" message, another status "API error (<status>): ...",
    a timeout "Request timed out, please try again", another request
    error "Network error: ...", anything else "Unexpected error: ...".
    Failures of two different classes never give the same payload. *)
Theorem http_failures_become_payloads (w : world) (country_code indicator : string)
    (year : Z) :
  (forall e,
     http w (countries_request country_code) = Raise e ->
     get_country_info w country_code
     = ([countries_request country_code],
        Ok (VDict [("error",
                    VStr match e with
                         | HTTPStatusError status m =>
                             if status =? 404
                             then "Country code '" ++ country_code ++ "' not found"
                             else "API error (" ++ str_int status ++ "): " ++ m
                         | TimeoutException _ => "Request timed out, please try again"
                         | RequestError m => "Network error: " ++ m
                         | _ => "Unexpected error: " ++ str_exn e
                         end)])))
  /\ (forall e,
        http w (indicator_request country_code indicator year) = Raise e ->
        get_live_indicator w country_code indicator year
        = ([indicator_request country_code indicator year],
           Ok (VDict [("error",
                       VStr match e with
                            | HTTPStatusError status m =>
                                if status =? 404
                                then "Country '" ++ country_code ++ "' or indicator '"
                                     ++ indicator ++ "' not found"
                                else "API error (" ++ str_int status ++ "): " ++ m
                            | TimeoutException _ => "Request timed out, please try again"
                            | RequestError m => "Network error: " ++ m
                            | _ => "Unexpected error: " ++ str_exn e
                            end)])))
  /\ (forall w' country_code' e e',
        http w (countries_request country_code) = Raise e ->
        http w' (countries_request country_code') = Raise e' ->
        failure_kind_of e <> failure_kind_of e' ->
        snd (get_country_info w country_code) <> snd (get_country_info w' country_code'))
  /\ (forall w' country_code' indicator' year' e e',
        http w (indicator_request country_code indicator year) = Raise e ->
        http w' (indicator_request country_code' indicator' year') = Raise e' ->
        failure_kind_of e <> failure_kind_of e' ->
        snd (get_live_indicator w country_code indicator year)
        <> snd (get_live_indicator w' country_code' indicator' year')).
Proof.
  split; [| split; [| split]].
  - intros e He. now apply get_country_info_failure.
  - intros e He. now apply get_live_indicator_failure.
  - intros w' country_code' e e' He He' Hk.
    rewrite (get_country_info_failure _ _ _ He), (get_country_info_failure _ _ _ He').
    unfold error_payload. cbn [snd]. intros [= Hmsg]. revert Hmsg.
    apply (failure_messages_differ e e'
             (" code '" ++ country_code ++ "' not found")
             (" code '" ++ country_code' ++ "' not found")
             (str_exn e) (str_exn e') Hk).
  - intros w' country_code' indicator' year' e e' He He' Hk.
    rewrite (get_live_indicator_failure _ _ _ _ _ He),
            (get_live_indicator_failure _ _ _ _ _ He').
    unfold error_payload. cbn [snd]. intros [= Hmsg]. revert Hmsg.
    apply (failure_messages_differ e e'
             (" '" ++ country_code ++ "' or indicator '" ++ indicator ++ "' not found")
             (" '" ++ country_code' ++ "' or indicator '" ++ indicator' ++ "' not found")
             (str_exn e) (str_exn e') Hk).
Qed.

Lemma http_failures_become_payloads_witness :
  let down e := Samples.world_with (Raise e) None (fun l => l) in
  let info e := snd (get_country_info (down e) "FR") in
  let live e := snd (get_live_indicator (down e) "FR" "SP.POP.TOTL" 2022) in
  info (HTTPStatusError 404 "Client error '404 Not Found'")
  = Ok (VDict [("error", VStr "Country code 'FR' not found")])
  /\ info (HTTPStatusError 503 "Server error")
     = Ok (VDict [("error", VStr "API error (503): Server error")])
  /\ info (TimeoutException "timed out")
     = Ok (VDict [("error", VStr "Request timed out, please try again")])
  /\ info (RequestError "All connection attempts failed")
     = Ok (VDict [("error", VStr "Network error: All connection attempts failed")])
  /\ info (OtherException "Expecting value: line 1 column 1 (char 0)")
     = Ok (VDict [("error",
                  VStr "Unexpected error: Expecting value: line 1 column 1 (char 0)")])
  /\ live (HTTPStatusError 404 "Client error '404 Not Found'")
     = Ok (VDict [("error", VStr "Country 'FR' or indicator 'SP.POP.TOTL' not found")])
  /\ live (TimeoutException "timed out")
     = Ok (VDict [("error", VStr "Request timed out, please try again")])
  /\ info (TimeoutException "timed out") <> info (RequestError "timed out")
  /\ live (HTTPStatusError 404 "gone") <> live (HTTPStatusError 500 "gone").
Proof.
  intros down info live.
  pose proof (fun e => http_failures_become_payloads (down e) "FR" "SP.POP.TOTL" 2022)
    as H.
  split; [| split; [| split; [| split; [| split; [| split; [| split; [| split]]]]]]].
  - exact (f_equal snd (proj1 (H _) (HTTPStatusError 404 _) eq_refl)).
  - exact (f_equal snd (proj1 (H _) (HTTPStatusError 503 _) eq_refl)).
  - exact (f_equal snd (proj1 (H _) (TimeoutException _) eq_refl)).
  - exact (f_equal snd (proj1 (H _) (RequestError _) eq_refl)).
  - exact (f_equal snd (proj1 (H _) (OtherException _) eq_refl)).
  - exact (f_equal snd (proj1 (proj2 (H _)) (HTTPStatusError 404 _) eq_refl)).
  - exact (f_equal snd (proj1 (proj2 (H _)) (TimeoutException _) eq_refl)).
  - refine (proj1 (proj2 (proj2 (H (TimeoutException "timed out"))))
              (down (RequestError "timed out")) "FR" _ _ eq_refl eq_refl _).
    discriminate.
  - refine (proj2 (proj2 (proj2 (H (HTTPStatusError 404 "gone"))))
              (down (HTTPStatusError 500 "gone")) "FR" "SP.POP.TOTL" 2022
              _ _ eq_refl eq_refl _).
    discriminate.
Defined.

(** ** get_live_indicator on a decoded response *)

Section Scan.

Variables (country_code indicator : string) (year : Z).

Lemma scan_records_skip pre rest :
  Forall (other_year year) pre ->
  scan_records country_code indicator year (pre ++ rest)
  = scan_records country_code indicator year rest.
Proof.
  induction 1 as [| record pre [d [-> Hdate]] _ IH]; [reflexivity |].
  cbn [app scan_records method_get rbind]. now rewrite Hdate.
Qed.

Lemma scan_records_match r post c i :
  eq_str (dict_get r "date" VNone) (str_int year) = true ->
  dict_get r "country" (VDict []) = VDict c ->
  dict_get r "indicator" (VDict []) = VDict i ->
  scan_records country_code indicator year (VDict r :: post)
  = Ok (VDict [("country", VStr country_code);
               ("country_name", dict_get c "value" (VStr "N/A"));
               ("indicator", VStr indicator);
               ("indicator_name", dict_get i "value" (VStr "N/A"));
               ("year", VInt year);
               ("value", dict_get r "value" VNone)]).
Proof.
  intros Hdate Hc Hi. cbn [scan_records method_get rbind].
  rewrite Hdate, Hc, Hi. reflexivity.
Qed.

Lemma scan_records_no_match items :
  Forall (other_year year) items ->
  scan_records country_code indicator year items
  = Ok (error_payload ("No data found for " ++ country_code ++ " / " ++ indicator
                       ++ " in " ++ str_int year)).
Proof.
  intros H. rewrite <- (app_nil_r items). now rewrite scan_records_skip.
Qed.

Lemma get_live_indicator_no_records w env :
  http w (indicator_request country_code indicator year) = Ok (VList env) ->
  nth_error env 1 = None
  \/ (exists d1, nth_error env 1 = Some d1 /\ truthy d1 = false) ->
  get_live_indicator w country_code indicator year
  = ([indicator_request country_code indicator year],
     Ok (error_payload ("No data available for " ++ country_code ++ " / " ++ indicator
                        ++ " in " ++ str_int year))).
Proof.
  intros Hhttp Hrec. unfold get_live_indicator.
  rewrite (fetch_indicator_ok _ _ _ _ _ Hhttp).
  destruct env as [| meta [| d1 tl]]; try reflexivity.
  destruct Hrec as [Hnone | [d [[= <-] Hfalsy]]]; [discriminate Hnone |].
  cbn [len length Nat.ltb Nat.leb rbind getitem_int nth_error].
  rewrite Hfalsy. reflexivity.
Qed.

Lemma get_live_indicator_scans w env items payload :
  http w (indicator_request country_code indicator year) = Ok (VList env) ->
  nth_error env 1 = Some (VList items) ->
  items <> [] ->
  scan_records country_code indicator year items = Ok payload ->
  get_live_indicator w country_code indicator year
  = ([indicator_request country_code indicator year], Ok payload).
Proof.
  intros Hhttp Hrec Hne Hscan. unfold get_live_indicator.
  rewrite (fetch_indicator_ok _ _ _ _ _ Hhttp).
  destruct env as [| meta [| d1 tl]]; try discriminate Hrec.
  injection Hrec as ->.
  destruct items as [| r0 items]; [now elim Hne |].
  cbn [len length Nat.ltb Nat.leb rbind getitem_int nth_error truthy negb
       bind pure fst snd app try_except iterate].
  rewrite Hscan. reflexivity.
Qed.

End Scan.

(** C7, as stated, fails: the first record's date equals the requested
    year, yet the result is not an Indicator Observation, because the
    record's [country] field is [null]. *)
Lemma live_indicator_match_without_observation :
  let record := VDict [("date", VStr "2022"); ("country", VNone); ("value", VInt 1)] in
  let w := Samples.world_with (Ok (Samples.envelope (VList [record]))) None (fun l => l) in
  http w (indicator_request "FR" "NY.GDP.PCAP.CD" 2022)
  = Ok (VList [VDict [("page", VInt 1); ("pages", VInt 1)]; VList [record]])
  /\ method_get record "date" VNone = Ok (VStr (str_int 2022))
  /\ get_live_indicator w "FR" "NY.GDP.PCAP.CD" 2022
     = ([indicator_request "FR" "NY.GDP.PCAP.CD" 2022],
        Ok (VDict [("error",
                    VStr "Unexpected error: 'NoneType' object has no attribute 'get'")])).
Proof. repeat split. Qed.

(** C7, amended.  When the upstream call succeeds with an envelope:
    an absent or empty records element gives the "No data available"
    payload; when the records are objects, the first one whose [date]
    equals the requested year, provided its [country] and [indicator]
    fields are absent or objects, gives the Indicator Observation built
    from it, with [value] passed through even when it is [null]; when
    the records are objects and none has that date, the result is the
    "No data found" payload, which differs from the first. *)
Theorem live_indicator_three_cases (w : world) (country_code indicator : string)
    (year : Z) (env : list value) :
  http w (indicator_request country_code indicator year) = Ok (VList env) ->
  (nth_error env 1 = None
   \/ (exists d1, nth_error env 1 = Some d1 /\ truthy d1 = false) ->
   get_live_indicator w country_code indicator year
   = ([indicator_request country_code indicator year],
      Ok (VDict [("error", VStr ("No data available for " ++ country_code ++ " / "
                                 ++ indicator ++ " in " ++ str_int year))])))
  /\ (forall pre r post c i,
        nth_error env 1 = Some (VList (pre ++ VDict r :: post)) ->
        Forall (other_year year) pre ->
        eq_str (dict_get r "date" VNone) (str_int year) = true ->
        dict_get r "country" (VDict []) = VDict c ->
        dict_get r "indicator" (VDict []) = VDict i ->
        get_live_indicator w country_code indicator year
        = ([indicator_request country_code indicator year],
           Ok (VDict [("country", VStr country_code);
                      ("country_name", dict_get c "value" (VStr "N/A"));
                      ("indicator", VStr indicator);
                      ("indicator_name", dict_get i "value" (VStr "N/A"));
                      ("year", VInt year);
                      ("value", dict_get r "value" VNone)])))
  /\ (forall items,
        nth_error env 1 = Some (VList items) ->
        items <> [] ->
        Forall (other_year year) items ->
        get_live_indicator w country_code indicator year
        = ([indicator_request country_code indicator year],
           Ok (VDict [("error", VStr ("No data found for " ++ country_code ++ " / "
                                      ++ indicator ++ " in " ++ str_int year))])))
  /\ "No data available for " ++ country_code ++ " / " ++ indicator ++ " in "
     ++ str_int year
     <> "No data found for " ++ country_code ++ " / " ++ indicator ++ " in "
        ++ str_int year.
Proof.
  intros Hhttp. split; [| split; [| split]].
  - now apply get_live_indicator_no_records.
  - intros pre r post c i Hrec Hpre Hdate Hc Hi.
    apply (get_live_indicator_scans _ _ _ w env (pre ++ VDict r :: post));
      try assumption.
    + now destruct pre.
    + rewrite scan_records_skip by assumption.
      now apply scan_records_match.
  - intros items Hrec Hne Hall.
    apply (get_live_indicator_scans _ _ _ w env items); try assumption.
    now apply scan_records_no_match.
  - cbn. discriminate.
Qed.

Lemma live_indicator_three_cases_witness :
  let answer body := Samples.world_with (Ok body) None (fun l => l) in
  let run body := get_live_indicator (answer body) "FR" "NY.GDP.PCAP.CD" 2022 in
  let rq := indicator_request "FR" "NY.GDP.PCAP.CD" 2022 in
  run (VList [VDict [("message", VStr "Invalid value")]])
  = ([rq], Ok (VDict [("error",
                       VStr "No data available for FR / NY.GDP.PCAP.CD in 2022")]))
  /\ run (Samples.envelope VNone)
     = ([rq], Ok (VDict [("error",
                          VStr "No data available for FR / NY.GDP.PCAP.CD in 2022")]))
  /\ run (Samples.envelope (VList [Samples.gdp_record "2023" (VFloat "44690.93");
                                   Samples.gdp_record "2022" VNone]))
     = ([rq], Ok (VDict [("country", VStr "FR");
                         ("country_name", VStr "France");
                         ("indicator", VStr "NY.GDP.PCAP.CD");
                         ("indicator_name", VStr "GDP per capita (current US$)");
                         ("year", VInt 2022);
                         ("value", VNone)]))
  /\ run (Samples.envelope (VList [Samples.gdp_record "2023" (VFloat "44690.93")]))
     = ([rq], Ok (VDict [("error",
                          VStr "No data found for FR / NY.GDP.PCAP.CD in 2022")])).
Proof.
  intros answer run rq.
  pose proof (fun body env H =>
                live_indicator_three_cases (answer body) "FR" "NY.GDP.PCAP.CD" 2022
                  env H) as T.
  split; [| split; [| split]].
  - refine (proj1 (T _ [VDict [("message", VStr "Invalid value")]] eq_refl) _).
    left. reflexivity.
  - refine (proj1 (T _ [_; VNone] eq_refl) _).
    right. exists VNone. split; reflexivity.
  - refine (proj1 (proj2 (T _ [_; VList [Samples.gdp_record "2023" (VFloat "44690.93");
                                         Samples.gdp_record "2022" VNone]] eq_refl))
              [Samples.gdp_record "2023" (VFloat "44690.93")] _ []
              [("id", VStr "FR"); ("value", VStr "France")]
              [("id", VStr "NY.GDP.PCAP.CD");
               ("value", VStr "GDP per capita (current US$)")]
              eq_refl _ eq_refl eq_refl eq_refl).
    constructor; [| constructor]. eexists. split; reflexivity.
  - refine (proj1 (proj2 (proj2 (T _ [_; VList [Samples.gdp_record "2023"
                                                  (VFloat "44690.93")]] eq_refl)))
              _ eq_refl _ _).
    + discriminate.
    + constructor; [| constructor]. eexists. split; reflexivity.
Defined.

(** ** get_country_info on a decoded response *)

Lemma dict_get_absent d k default : dict_lookup d k = None -> dict_get d k default = default.
Proof. unfold dict_get. now intros ->. Qed.

Lemma get_country_info_first_match w country_code first rest :
  http w (countries_request country_code) = Ok (VList (first :: rest)) ->
  forall rest',
    get_country_info w country_code
    = get_country_info
        {| http := fun _ => Ok (VList (first :: rest'));
           server_dir := server_dir w;
           data_file := data_file w;
           engine_order := engine_order w |} country_code.
Proof.
  intros Hhttp rest'. unfold get_country_info.
  rewrite !fetch_rest_countries_run, Hhttp. reflexivity.
Qed.

Lemma reshape_first_match w country_code first rest
    (k : value -> result value) (handler : exn -> M value) :
  http w (countries_request country_code) = Ok (VList (first :: rest)) ->
  try_except (data <- _fetch_rest_countries w country_code ;; pure (k data)) handler
  = match k first with
    | Ok payload => ([countries_request country_code], Ok payload)
    | Raise e => (countries_request country_code :: fst (handler e), snd (handler e))
    end.
Proof.
  intros Hhttp. rewrite fetch_rest_countries_run, Hhttp.
  cbn [rbind getitem_int nth_error bind pure fst snd app].
  destruct (k first); reflexivity.
Qed.

(** C8, as stated, fails: a successful response whose first element
    lacks [name], or carries an empty [capital] list, is not reshaped
    into a Country Info with defaults. *)
Lemma country_info_not_always_built :
  get_country_info (Samples.world_with (Ok (VList [VDict [("region", VStr "Europe")]]))
                      None (fun l => l)) "FR"
  = ([countries_request "FR"],
     Ok (VDict [("error", VStr "Unexpected error: 'name'")]))
  /\ get_country_info
       (Samples.world_with
          (Ok (VList [VDict [("name", VDict [("common", VStr "Antarctica")]);
                             ("capital", VList [])]]))
          None (fun l => l)) "AQ"
     = ([countries_request "AQ"],
        Ok (VDict [("error", VStr "Unexpected error: list index out of range")])).
Proof. split; reflexivity. Qed.

(** C8, amended.  For a successful response whose first element is an
    object carrying [name.common], whose [capital] (or the default
    [["N/A"]]) has a first element, and whose [languages] and
    [currencies], when present, are objects, the tool returns the
    Country Info built from the first element alone: the elements after
    it play no part, and an absent field takes its default. *)
Theorem country_info_from_first_match (w : world) (country_code : string)
    (d : list (string * value)) (rest : list value)
    (name_obj langs curs : list (string * value)) (common capital : value) :
  http w (countries_request country_code) = Ok (VList (VDict d :: rest)) ->
  dict_lookup d "name" = Some (VDict name_obj) ->
  dict_lookup name_obj "common" = Some common ->
  getitem_int (dict_get d "capital" (VList [VStr "N/A"])) 0 = Ok capital ->
  dict_get d "languages" (VDict []) = VDict langs ->
  dict_get d "currencies" (VDict []) = VDict curs ->
  get_country_info w country_code
  = ([countries_request country_code],
     Ok (VDict [("name", common);
                ("capital", capital);
                ("region", dict_get d "region" (VStr "N/A"));
                ("subregion", dict_get d "subregion" (VStr "N/A"));
                ("languages", VList (map snd langs));
                ("currencies", VList (map (fun kv => VStr (fst kv)) curs));
                ("population", dict_get d "population" (VInt 0));
                ("flag", dict_get d "flag" (VStr ""))]))
  /\ (forall rest',
        get_country_info w country_code
        = get_country_info
            {| http := fun _ => Ok (VList (VDict d :: rest'));
               server_dir := server_dir w;
               data_file := data_file w;
               engine_order := engine_order w |} country_code)
  /\ (dict_lookup d "capital" = None -> capital = VStr "N/A")
  /\ (dict_lookup d "region" = None -> dict_get d "region" (VStr "N/A") = VStr "N/A")
  /\ (dict_lookup d "subregion" = None ->
      dict_get d "subregion" (VStr "N/A") = VStr "N/A")
  /\ (dict_lookup d "languages" = None -> langs = [])
  /\ (dict_lookup d "currencies" = None -> curs = [])
  /\ (dict_lookup d "population" = None -> dict_get d "population" (VInt 0) = VInt 0)
  /\ (dict_lookup d "flag" = None -> dict_get d "flag" (VStr "") = VStr "").
Proof.
  intros Hhttp Hname Hcommon Hcap Hlangs Hcurs.
  split; [| split; [| repeat split]].
  - unfold get_country_info. rewrite (reshape_first_match _ _ _ _ _ _ Hhttp).
    cbn [rbind getitem_str method_get].
    rewrite Hname. cbn [rbind getitem_str]. rewrite Hcommon. cbn [rbind].
    rewrite Hcap. cbn [rbind]. rewrite Hlangs, Hcurs. reflexivity.
  - exact (get_country_info_first_match _ _ _ _ Hhttp).
  - intros Habs. rewrite (dict_get_absent _ _ _ Habs) in Hcap. now injection Hcap.
  - apply dict_get_absent.
  - apply dict_get_absent.
  - intros Habs. rewrite (dict_get_absent _ _ _ Habs) in Hlangs. now injection Hlangs.
  - intros Habs. rewrite (dict_get_absent _ _ _ Habs) in Hcurs. now injection Hcurs.
  - apply dict_get_absent.
  - apply dict_get_absent.
Qed.

Lemma country_info_from_first_match_witness :
  let answer body := Samples.world_with (Ok body) None (fun l => l) in
  get_country_info
    (answer (VList [Samples.france; VDict [("name", VDict [("common", VStr "Other")])]]))
    "FR"
  = ([countries_request "FR"],
     Ok (VDict [("name", VStr "France");
                ("capital", VStr "Paris");
                ("region", VStr "Europe");
                ("subregion", VStr "N/A");
                ("languages", VList [VStr "French"]);
                ("currencies", VList [VStr "EUR"]);
                ("population", VInt 67391582);
                ("flag", VStr "")]))
  /\ get_country_info
       (answer (VList [VDict [("name", VDict [("common", VStr "Nowhere")])]])) "NW"
     = ([countries_request "NW"],
        Ok (VDict [("name", VStr "Nowhere");
                   ("capital", VStr "N/A");
                   ("region", VStr "N/A");
                   ("subregion", VStr "N/A");
                   ("languages", VList []);
                   ("currencies", VList []);
                   ("population", VInt 0);
                   ("flag", VStr "")])).
Proof.
  intros answer. split.
  - refine (proj1 (country_info_from_first_match
                     (answer (VList [Samples.france;
                                     VDict [("name", VDict [("common", VStr "Other")])]]))
                     "FR" _ _
                     [("common", VStr "France"); ("official", VStr "French Republic")]
                     [("fra", VStr "French")]
                     [("EUR", VDict [("name", VStr "Euro")])]
                     (VStr "France") (VStr "Paris")
                     eq_refl eq_refl eq_refl eq_refl eq_refl eq_refl)).
  - refine (proj1 (country_info_from_first_match
                     (answer (VList [VDict [("name", VDict [("common", VStr "Nowhere")])]]))
                     "NW" _ []
                     [("common", VStr "Nowhere")] [] []
                     (VStr "Nowhere") (VStr "N/A")
                     eq_refl eq_refl eq_refl eq_refl eq_refl eq_refl)).
Defined.

(** C10.  When the first match is an object that lacks [name.common] -
    [name] is absent, or is present and subscripting it with ["common"]
    fails, be it an object without that key or no object at all - or
    that carries [name.common] together with an empty [capital] list,
    the tool returns no Country Info: the [KeyError], [TypeError] or
    [IndexError] ends in the catch-all and the caller gets an
    "Unexpected error" payload. *)
Theorem malformed_first_match_is_unexpected_error (w : world) (country_code : string)
    (d : list (string * value)) (rest : list value) :
  http w (countries_request country_code) = Ok (VList (VDict d :: rest)) ->
  (dict_lookup d "name" = None ->
   get_country_info w country_code
   = ([countries_request country_code],
      Ok (VDict [("error", VStr "Unexpected error: 'name'")])))
  /\ (forall name_obj,
        dict_lookup d "name" = Some (VDict name_obj) ->
        dict_lookup name_obj "common" = None ->
        get_country_info w country_code
        = ([countries_request country_code],
           Ok (VDict [("error", VStr "Unexpected error: 'common'")])))
  /\ (forall name_obj common,
        dict_lookup d "name" = Some (VDict name_obj) ->
        dict_lookup name_obj "common" = Some common ->
        dict_lookup d "capital" = Some (VList []) ->
        get_country_info w country_code
        = ([countries_request country_code],
           Ok (VDict [("error", VStr "Unexpected error: list index out of range")])))
  /\ (forall name e,
        dict_lookup d "name" = Some name ->
        getitem_str name "common" = Raise e ->
        get_country_info w country_code
        = ([countries_request country_code],
           Ok (VDict [("error", VStr ("Unexpected error: " ++ str_exn e))])))
  /\ (forall name,
        dict_lookup d "name" = Some name ->
        (forall name_obj, name <> VDict name_obj) ->
        exists msg,
          getitem_str name "common" = Raise (TypeError msg)
          /\ get_country_info w country_code
             = ([countries_request country_code],
                Ok (VDict [("error", VStr ("Unexpected error: " ++ msg))]))).
Proof.
  intros Hhttp.
  unfold get_country_info. rewrite (reshape_first_match _ _ _ _ _ _ Hhttp).
  cbn [rbind getitem_str method_get].
  split; [| split; [| split; [| split]]].
  - intros Hname. now rewrite Hname.
  - intros name_obj Hname Hcommon.
    rewrite Hname. cbn [rbind getitem_str]. now rewrite Hcommon.
  - intros name_obj common Hname Hcommon Hcap.
    rewrite Hname. cbn [rbind getitem_str]. rewrite Hcommon. cbn [rbind].
    unfold dict_get at 1. now rewrite Hcap.
  - intros name e Hname Hcommon.
    rewrite Hname. cbn [rbind]. rewrite Hcommon. cbn [rbind].
    destruct name as [| | | | | | name_obj]; cbn in Hcommon;
      try (injection Hcommon as <-; reflexivity).
    destruct (dict_lookup name_obj "common"); [discriminate Hcommon |].
    injection Hcommon as <-. reflexivity.
  - intros name Hname Hnot. rewrite Hname. cbn [rbind].
    destruct name as [| | | | | | name_obj]; try (now elim (Hnot name_obj));
      (eexists; split; reflexivity).
Qed.

Lemma malformed_first_match_is_unexpected_error_witness :
  let run first :=
    get_country_info (Samples.world_with (Ok (VList [VDict first])) None (fun l => l))
      "AQ" in
  run [("region", VStr "Antarctic")]
  = ([countries_request "AQ"], Ok (VDict [("error", VStr "Unexpected error: 'name'")]))
  /\ run [("name", VDict [("official", VStr "Antarctica")])]
     = ([countries_request "AQ"],
        Ok (VDict [("error", VStr "Unexpected error: 'common'")]))
  /\ run [("name", VDict [("common", VStr "Antarctica")]); ("capital", VList [])]
     = ([countries_request "AQ"],
        Ok (VDict [("error", VStr "Unexpected error: list index out of range")]))
  /\ run [("name", VNone)]
     = ([countries_request "AQ"],
        Ok (VDict [("error",
                    VStr "Unexpected error: 'NoneType' object is not subscriptable")]))
  /\ (exists msg,
        getitem_str (VStr "Antarctica") "common" = Raise (TypeError msg)
        /\ run [("name", VStr "Antarctica")]
           = ([countries_request "AQ"],
              Ok (VDict [("error", VStr ("Unexpected error: " ++ msg))]))).
Proof.
  intros run.
  pose proof (fun first =>
                malformed_first_match_is_unexpected_error
                  (Samples.world_with (Ok (VList [VDict first])) None (fun l => l))
                  "AQ" first [] eq_refl) as T.
  split; [| split; [| split; [| split]]].
  - exact (proj1 (T [("region", VStr "Antarctic")]) eq_refl).
  - exact (proj1 (proj2 (T [("name", VDict [("official", VStr "Antarctica")])]))
             [("official", VStr "Antarctica")] eq_refl eq_refl).
  - exact (proj1 (proj2 (proj2 (T [("name", VDict [("common", VStr "Antarctica")]);
                                   ("capital", VList [])])))
             [("common", VStr "Antarctica")] (VStr "Antarctica")
             eq_refl eq_refl eq_refl).
  - exact (proj1 (proj2 (proj2 (proj2 (T [("name", VNone)]))))
             VNone (TypeError "'NoneType' object is not subscriptable")
             eq_refl eq_refl).
  - refine (proj2 (proj2 (proj2 (proj2 (T [("name", VStr "Antarctica")]))))
              (VStr "Antarctica") eq_refl _).
    intros name_obj. discriminate.
Defined.

(** ** Which operations can raise *)

Lemma get_countries_returns w : exists s, get_countries w = Ok s.
Proof.
  unfold get_countries.
  destruct (_load_data w) as [df | e]; cbn [rbind rcatch].
  - destruct (select _ df) as [sel | e]; cbn [rbind rcatch];
      [| destruct e]; eexists; reflexivity.
  - destruct e; eexists; reflexivity.
Qed.

Lemma get_country_indicators_returns w country_code :
  exists s, get_country_indicators w country_code = Ok s.
Proof.
  unfold get_country_indicators.
  destruct (_load_data w) as [df | e]; cbn [rbind rcatch].
  - destruct (filter_eq_str _ _ df) as [filtered | e]; cbn [rbind rcatch].
    + destruct (is_empty filtered); eexists; reflexivity.
    + destruct e; eexists; reflexivity.
  - destruct e; eexists; reflexivity.
Qed.

Lemma resources_wrap_loader_failure w e :
  _load_data w = Raise e ->
  let msg tag := match e with
                 | FileNotFoundError m => m
                 | _ => tag ++ str_exn e
                 end in
  get_countries w = Ok (json_dumps None [("error", msg "Failed to load countries: ")])
  /\ forall country_code,
       get_country_indicators w country_code
       = Ok (json_dumps None [("error", msg "Failed to fetch indicators: ")]).
Proof.
  intros Hload. unfold get_countries, get_country_indicators. rewrite Hload.
  destruct e; split; reflexivity.
Qed.

Lemma load_data_missing w :
  data_file w = None ->
  _load_data w = Raise (FileNotFoundError ("Data file not found: " ++ DATA_FILE w)).
Proof. unfold _load_data. now intros ->. Qed.

Lemma compare_countries_with_returns lookup country_codes indicator year :
  exists results,
    snd (compare_countries_with lookup country_codes indicator year) = Ok results.
Proof.
  destruct country_codes as [| c cs].
  - eexists. reflexivity.
  - rewrite compare_countries_with_nonempty by discriminate.
    eexists. reflexivity.
Qed.

(** X7.  With the server's own lookup, which never raises, every entry
    of a non-empty comparison is the payload [get_live_indicator]
    returns for the code at that position; the partial record of
    [compare_countries] is only reached by a lookup that raises, so a
    failed country shows as a bare error payload. *)
Lemma compare_countries_entries_are_payloads w country_codes indicator year :
  country_codes <> [] ->
  exists results,
    snd (compare_countries w country_codes indicator year) = Ok results
    /\ Forall2 (fun code entry =>
                  snd (get_live_indicator w code indicator year) = Ok entry)
         country_codes results.
Proof.
  intros Hne. unfold compare_countries.
  rewrite compare_countries_with_nonempty by assumption.
  eexists. split; [reflexivity |].
  clear Hne. induction country_codes as [| code codes IH]; cbn [map]; constructor.
  - destruct (get_live_indicator_returns w code indicator year) as [payload ->].
    reflexivity.
  - exact IH.
Qed.

(** C9.  With the data file missing, the schema resource raises
    [FileNotFoundError], while the two other resources return the error
    as a payload.  No other operation ever raises: the countries and the
    indicators resource wrap every loader failure in an Error Payload,
    the two single-call tools wrap every failure of their call in one,
    and all of them, as well as [compare_countries], return on every
    input. *)
Theorem only_get_schema_raises (w : world) :
  (data_file w = None ->
   get_schema w = Raise (FileNotFoundError ("Data file not found: " ++ DATA_FILE w))
   /\ get_countries w
      = Ok (json_dumps None [("error", "Data file not found: " ++ DATA_FILE w)])
   /\ forall country_code,
        get_country_indicators w country_code
        = Ok (json_dumps None [("error", "Data file not found: " ++ DATA_FILE w)]))
  /\ (forall e, _load_data w = Raise e ->
        (exists msg, get_countries w = Ok (json_dumps None [("error", msg)]))
        /\ forall country_code,
             exists msg,
               get_country_indicators w country_code
               = Ok (json_dumps None [("error", msg)]))
  /\ (exists s, get_countries w = Ok s)
  /\ (forall country_code, exists s, get_country_indicators w country_code = Ok s)
  /\ (forall country_code,
        (exists payload,
           get_country_info w country_code
           = ([countries_request country_code], Ok payload))
        /\ forall e, http w (countries_request country_code) = Raise e ->
             exists msg,
               get_country_info w country_code
               = ([countries_request country_code], Ok (VDict [("error", VStr msg)])))
  /\ (forall country_code indicator year,
        (exists payload,
           get_live_indicator w country_code indicator year
           = ([indicator_request country_code indicator year], Ok payload))
        /\ forall e, http w (indicator_request country_code indicator year) = Raise e ->
             exists msg,
               get_live_indicator w country_code indicator year
               = ([indicator_request country_code indicator year],
                  Ok (VDict [("error", VStr msg)])))
  /\ (forall country_codes indicator year,
        exists results, snd (compare_countries w country_codes indicator year) = Ok results).
Proof.
  split; [| split; [| split; [| split; [| split; [| split]]]]].
  - intros Hmissing. pose proof (load_data_missing w Hmissing) as Hload.
    split.
    + unfold get_schema. now rewrite Hload.
    + exact (resources_wrap_loader_failure w _ Hload).
  - intros e Hload.
    destruct (resources_wrap_loader_failure w e Hload) as [Hc Hi].
    split; [| intros country_code]; eexists; [apply Hc | apply Hi].
  - apply get_countries_returns.
  - apply get_country_indicators_returns.
  - intros country_code. split.
    + apply get_country_info_returns.
    + intros e He. eexists. apply (get_country_info_failure _ _ _ He).
  - intros country_code indicator year. split.
    + apply get_live_indicator_returns.
    + intros e He. eexists. apply (get_live_indicator_failure _ _ _ _ _ He).
  - intros country_codes indicator year. apply compare_countries_with_returns.
Qed.

Lemma only_get_schema_raises_witness :
  get_schema Samples.w_no_file
  = Raise (FileNotFoundError
             "Data file not found: /srv/lab/data/world_bank_indicators.csv")
  /\ get_countries Samples.w_no_file
     = Ok ("{" ++ Samples.q "error" ++ ": "
           ++ Samples.q "Data file not found: /srv/lab/data/world_bank_indicators.csv"
           ++ "}")
  /\ get_country_indicators Samples.w_no_file "USA"
     = Ok ("{" ++ Samples.q "error" ++ ": "
           ++ Samples.q "Data file not found: /srv/lab/data/world_bank_indicators.csv"
           ++ "}")
  /\ (exists msg,
        get_countries (Samples.world_with Samples.offline
                         (Some (Raise (OtherException "could not parse")))
                         (fun l => l))
        = Ok (json_dumps None [("error", msg)]))
  /\ (exists msg,
        get_country_info Samples.w_no_file "US"
        = ([countries_request "US"], Ok (VDict [("error", VStr msg)]))).
Proof.
  destruct (proj1 (only_get_schema_raises Samples.w_no_file) eq_refl) as [Hs [Hc Hi]].
  split; [exact Hs |]. split; [exact Hc |]. split; [exact (Hi "USA") |]. split.
  - exact (proj1 (proj1 (proj2 (only_get_schema_raises
                                  (Samples.world_with Samples.offline
                                     (Some (Raise (OtherException "could not parse")))
                                     (fun l => l))))
                    (OtherException "could not parse") eq_refl)).
  - destruct (only_get_schema_raises Samples.w_no_file) as [_ [_ [_ [_ [Hinfo _]]]]].
    exact (proj2 (Hinfo "US") (RequestError "All connection attempts failed") eq_refl).
Defined.

(** ** Concrete runs *)

Module Runs.
Import Samples.

Example schema_of_store :
  get_schema w_store
  = Ok ("{" ++ newline
        ++ "  " ++ q "countryiso3code" ++ ": " ++ q "String" ++ "," ++ newline
        ++ "  " ++ q "country" ++ ": " ++ q "String" ++ "," ++ newline
        ++ "  " ++ q "year" ++ ": " ++ q "Int64" ++ "," ++ newline
        ++ "  " ++ q "gdp_per_capita" ++ ": " ++ q "Float64" ++ newline
        ++ "}").
Proof. reflexivity. Qed.

Example countries_of_store :
  get_countries w_store
  = Ok ("[{" ++ q "countryiso3code" ++ ":" ++ q "CHN" ++ ","
        ++ q "country" ++ ":" ++ q "China" ++ "},{"
        ++ q "countryiso3code" ++ ":" ++ q "USA" ++ ","
        ++ q "country" ++ ":" ++ q "United States" ++ "}]").
Proof. reflexivity. Qed.

Example indicators_of_chn :
  get_country_indicators w_store "chn"
  = Ok ("[{" ++ q "countryiso3code" ++ ":" ++ q "CHN" ++ ","
        ++ q "country" ++ ":" ++ q "China" ++ ","
        ++ q "year" ++ ":2022,"
        ++ q "gdp_per_capita" ++ ":null}]").
Proof. reflexivity. Qed.

Example indicators_without_code_column :
  get_country_indicators
    (world_with offline (Some (Ok {| schema := [("country", String_)];
                                     rows := [[CStr "China"]] |})) (fun l => l)) "CHN"
  = Ok ("{" ++ q "error" ++ ": "
        ++ q ("Failed to fetch indicators: unable to find column "
              ++ backslash ++ dquote ++ "countryiso3code" ++ backslash ++ dquote)
        ++ "}").
Proof. reflexivity. Qed.

Example error_message_is_escaped :
  get_country_indicators w_store ("a" ++ dquote ++ "b")
  = Ok ("{" ++ q "error" ++ ": "
        ++ q ("Country code 'a" ++ backslash ++ dquote
              ++ "b' not found in local dataset") ++ "}").
Proof. reflexivity. Qed.

Example country_info_offline :
  get_country_info w_store "FR"
  = ([countries_request "FR"],
     Ok (VDict [("error", VStr "Network error: All connection attempts failed")])).
Proof. reflexivity. Qed.

Example country_info_empty_array :
  get_country_info (world_with (Ok (VList [])) None (fun l => l)) "ZZ"
  = ([countries_request "ZZ"],
     Ok (VDict [("error", VStr "Unexpected error: list index out of range")])).
Proof. reflexivity. Qed.

Example live_indicator_wrong_year :
  get_live_indicator
    (world_with (Ok (envelope (VList [gdp_record "2021" (VFloat "43671.31")])))
       None (fun l => l)) "FR" "NY.GDP.PCAP.CD" 2022
  = ([indicator_request "FR" "NY.GDP.PCAP.CD" 2022],
     Ok (VDict [("error", VStr "No data found for FR / NY.GDP.PCAP.CD in 2022")])).
Proof. reflexivity. Qed.

Example live_indicator_message_only :
  get_live_indicator
    (world_with (Ok (VList [VDict [("message", VList [VDict [("id", VStr "120")]])]]))
       None (fun l => l)) "FR" "BAD.ID" 2022
  = ([indicator_request "FR" "BAD.ID" 2022],
     Ok (VDict [("error", VStr "No data available for FR / BAD.ID in 2022")])).
Proof. reflexivity. Qed.

Example live_indicator_record_not_an_object :
  get_live_indicator
    (world_with (Ok (envelope (VList [VStr "2022"]))) None (fun l => l))
    "FR" "NY.GDP.PCAP.CD" 2022
  = ([indicator_request "FR" "NY.GDP.PCAP.CD" 2022],
     Ok (VDict [("error",
                 VStr "Unexpected error: 'str' object has no attribute 'get'")])).
Proof. reflexivity. Qed.

Example compare_two_codes_offline :
  compare_countries w_store ["USA"; "XYZ"] "NY.GDP.PCAP.CD" 2022
  = ([indicator_request "USA" "NY.GDP.PCAP.CD" 2022;
      indicator_request "XYZ" "NY.GDP.PCAP.CD" 2022],
     Ok [VDict [("error", VStr "Network error: All connection attempts failed")];
         VDict [("error", VStr "Network error: All connection attempts failed")]]).
Proof. reflexivity. Qed.

Example request_without_date_for_year_zero :
  fst (get_live_indicator w_store "FR" "SP.POP.TOTL" 0)
  = [{| url := "https://api.worldbank.org/v2/country/FR/indicator/SP.POP.TOTL";
        params := [("format", VStr "json"); ("per_page", VInt 100)] |}].
Proof. reflexivity. Qed.

End Runs.

(** * Further properties of the handlers *)

(** ** What the reshaping steps can raise *)

Lemma result_sat_rbind {A B} (P : B -> Prop) (Q : exn -> Prop)
    (r : result A) (k : A -> result B) :
  result_sat (fun _ => True) Q r ->
  (forall a, result_sat P Q (k a)) ->
  result_sat P Q (rbind r k).
Proof. destruct r as [a | e]; cbn; auto. Qed.

Lemma bind_pure {A B} (t : list request) (r : result A) (k : A -> result B) :
  bind (t, r) (fun a => pure (k a)) = (t, rbind r k).
Proof. destruct r; cbn; [now rewrite app_nil_r | reflexivity]. Qed.

Create HintDb reshape.

Lemma getitem_int_fault v i :
  result_sat (fun _ => True) (fun e => reshaping_fault e = true) (getitem_int v i).
Proof.
  destruct v; cbn; auto.
  - destruct (nth_error (chars s) i); cbn; auto.
  - destruct (nth_error l i); cbn; auto.
Qed.

Lemma getitem_str_fault v k :
  result_sat (fun _ => True) (fun e => reshaping_fault e = true) (getitem_str v k).
Proof. destruct v; cbn; auto. destruct (dict_lookup d k); cbn; auto. Qed.

Lemma method_get_fault v k default :
  result_sat (fun _ => True) (fun e => reshaping_fault e = true) (method_get v k default).
Proof. destruct v; cbn; auto. Qed.

Lemma method_values_fault v :
  result_sat (fun _ => True) (fun e => reshaping_fault e = true) (method_values v).
Proof. destruct v; cbn; auto. Qed.

Lemma method_keys_fault v :
  result_sat (fun _ => True) (fun e => reshaping_fault e = true) (method_keys v).
Proof. destruct v; cbn; auto. Qed.

Lemma len_fault v :
  result_sat (fun _ => True) (fun e => reshaping_fault e = true) (len v).
Proof. destruct v; cbn; auto. Qed.

Lemma iterate_fault v :
  result_sat (fun _ => True) (fun e => reshaping_fault e = true) (iterate v).
Proof. destruct v; cbn; auto. Qed.

#[local] Hint Resolve getitem_int_fault getitem_str_fault method_get_fault
  method_values_fault method_keys_fault len_fault iterate_fault : reshape.

(** Walks down a chain of [<~] steps. *)
Ltac reshape_chain :=
  repeat first
    [ apply result_sat_rbind; [| intros ?]
    | solve [auto with reshape]
    | solve [cbn; auto] ].

(** ** The tools on a decoded response *)

(** X1.  Once the upstream call has succeeded, [get_country_info]
    returns either a dictionary with exactly the eight Country Info
    keys, in order, or an "Unexpected error" payload.  None of the four
    messages kept for failures of the call itself can come out of a
    decoded body, however it is shaped. *)
Theorem country_info_on_decoded_response (w : world) (country_code : string)
    (body : value) :
  http w (countries_request country_code) = Ok body ->
  exists payload,
    get_country_info w country_code = ([countries_request country_code], Ok payload)
    /\ (keys payload
        = ["name"; "capital"; "region"; "subregion"; "languages"; "currencies";
           "population"; "flag"]
        \/ exists msg, payload = VDict [("error", VStr ("Unexpected error: " ++ msg))]).
Proof.
  intros Hhttp. unfold get_country_info.
  rewrite fetch_rest_countries_run, Hhttp. cbn [rbind]. rewrite bind_pure.
  match goal with
  | |- exists _, try_except (_, ?r) _ = _ /\ _ =>
      assert (Hsat : result_sat
                       (fun v => keys v
                                 = ["name"; "capital"; "region"; "subregion";
                                    "languages"; "currencies"; "population"; "flag"])
                       (fun e => reshaping_fault e = true) r)
        by reshape_chain;
      destruct r as [payload | e]
  end.
  - exists payload. split; [reflexivity | left; exact Hsat].
  - cbn in Hsat. destruct e; try discriminate Hsat;
      (eexists; split; [reflexivity | right; eexists; reflexivity]).
Qed.

Lemma country_info_on_decoded_response_witness :
  let run body :=
    get_country_info (Samples.world_with (Ok body) None (fun l => l)) "FR" in
  (exists payload,
     run (VList [Samples.france]) = ([countries_request "FR"], Ok payload)
     /\ (keys payload
         = ["name"; "capital"; "region"; "subregion"; "languages"; "currencies";
            "population"; "flag"]
         \/ exists msg, payload = VDict [("error", VStr ("Unexpected error: " ++ msg))]))
  /\ (exists payload,
        run (VDict [("status", VInt 404); ("message", VStr "Not Found")])
        = ([countries_request "FR"], Ok payload)
        /\ (keys payload
            = ["name"; "capital"; "region"; "subregion"; "languages"; "currencies";
               "population"; "flag"]
            \/ exists msg,
                 payload = VDict [("error", VStr ("Unexpected error: " ++ msg))])).
Proof.
  intros run. split.
  - exact (country_info_on_decoded_response
             (Samples.world_with (Ok (VList [Samples.france])) None (fun l => l))
             "FR" (VList [Samples.france]) eq_refl).
  - exact (country_info_on_decoded_response
             (Samples.world_with
                (Ok (VDict [("status", VInt 404); ("message", VStr "Not Found")]))
                None (fun l => l))
             "FR" (VDict [("status", VInt 404); ("message", VStr "Not Found")]) eq_refl).
Defined.

Lemma scan_records_sat country_code indicator year items :
  result_sat
    (fun v =>
       (exists country_name indicator_name observed,
          v = VDict [("country", VStr country_code);
                     ("country_name", country_name);
                     ("indicator", VStr indicator);
                     ("indicator_name", indicator_name);
                     ("year", VInt year);
                     ("value", observed)])
       \/ v = error_payload ("No data found for " ++ country_code ++ " / " ++ indicator
                             ++ " in " ++ str_int year))
    (fun e => reshaping_fault e = true)
    (scan_records country_code indicator year items).
Proof.
  induction items as [| record rest IH]; cbn [scan_records].
  - right. reflexivity.
  - apply result_sat_rbind; [auto with reshape | intros date].
    destruct (eq_str date (str_int year)); [| exact IH].
    reshape_chain. cbn. left. eauto.
Qed.

Lemma fetched_records_fault data :
  result_sat (fun _ => True) (fun e => reshaping_fault e = true)
    (n <~ len data ;;
     if (n <? 2)%nat then Ok (VList [])
     else d1 <~ getitem_int data 1 ;;
          if negb (truthy d1) then Ok (VList []) else getitem_int data 1).
Proof.
  apply result_sat_rbind; [auto with reshape | intros n].
  destruct (n <? 2)%nat; [exact I |].
  apply result_sat_rbind; [auto with reshape | intros d1].
  destruct (negb (truthy d1)); [exact I | auto with reshape].
Qed.

(** X2.  Once the upstream call has succeeded, [get_live_indicator]
    returns one of four things: an Indicator Observation with exactly
    the six keys, in which [country], [indicator] and [year] are the
    caller's arguments unchanged, the "No data available" payload, the
    "No data found" payload, or an "Unexpected error" payload. *)
Theorem live_indicator_on_decoded_response (w : world) (country_code indicator : string)
    (year : Z) (data : value) :
  http w (indicator_request country_code indicator year) = Ok data ->
  exists payload,
    get_live_indicator w country_code indicator year
    = ([indicator_request country_code indicator year], Ok payload)
    /\ ((exists country_name indicator_name observed,
           payload = VDict [("country", VStr country_code);
                            ("country_name", country_name);
                            ("indicator", VStr indicator);
                            ("indicator_name", indicator_name);
                            ("year", VInt year);
                            ("value", observed)])
        \/ payload = VDict [("error", VStr ("No data available for " ++ country_code
                                            ++ " / " ++ indicator ++ " in "
                                            ++ str_int year))]
        \/ payload = VDict [("error", VStr ("No data found for " ++ country_code
                                            ++ " / " ++ indicator ++ " in "
                                            ++ str_int year))]
        \/ exists msg, payload = VDict [("error", VStr ("Unexpected error: " ++ msg))]).
Proof.
  intros Hhttp. unfold get_live_indicator.
  rewrite (fetch_indicator_ok _ _ _ _ _ Hhttp).
  pose proof (fetched_records_fault data) as Hfetch.
  match type of Hfetch with
  | result_sat _ _ ?r => destruct r as [records | e]
  end.
  - cbn [bind fst snd app]. destruct (truthy records); cbn [negb].
    + pose proof (scan_records_sat country_code indicator year) as Hscan.
      assert (Hsat : result_sat
                       (fun v =>
                          (exists country_name indicator_name observed,
                             v = VDict [("country", VStr country_code);
                                        ("country_name", country_name);
                                        ("indicator", VStr indicator);
                                        ("indicator_name", indicator_name);
                                        ("year", VInt year);
                                        ("value", observed)])
                          \/ v = error_payload
                                   ("No data found for " ++ country_code ++ " / "
                                    ++ indicator ++ " in " ++ str_int year))
                       (fun e => reshaping_fault e = true)
                       (items <~ iterate records ;;
                        scan_records country_code indicator year items)).
      { apply result_sat_rbind; [auto with reshape | exact Hscan]. }
      destruct (items <~ iterate records ;;
                scan_records country_code indicator year items) as [payload | e].
      * exists payload. split; [reflexivity |].
        destruct Hsat as [Hobs | ->]; [left; exact Hobs | right; right; left; reflexivity].
      * cbn in Hsat. destruct e; try discriminate Hsat;
          (eexists; split; [reflexivity | right; right; right; eexists; reflexivity]).
    + eexists. split; [reflexivity | right; left; reflexivity].
  - cbn in Hfetch. destruct e; try discriminate Hfetch;
      (eexists; split; [reflexivity | right; right; right; eexists; reflexivity]).
Qed.

Lemma live_indicator_on_decoded_response_witness :
  exists payload,
    get_live_indicator
      (Samples.world_with (Ok (VDict [("message", VStr "rate limited"); ("code", VInt 1)]))
         None (fun l => l)) "FR" "SP.POP.TOTL" 2022
    = ([indicator_request "FR" "SP.POP.TOTL" 2022], Ok payload)
    /\ ((exists country_name indicator_name observed,
           payload = VDict [("country", VStr "FR");
                            ("country_name", country_name);
                            ("indicator", VStr "SP.POP.TOTL");
                            ("indicator_name", indicator_name);
                            ("year", VInt 2022);
                            ("value", observed)])
        \/ payload = VDict [("error", VStr ("No data available for " ++ "FR"
                                            ++ " / " ++ "SP.POP.TOTL" ++ " in "
                                            ++ str_int 2022))]
        \/ payload = VDict [("error", VStr ("No data found for " ++ "FR"
                                            ++ " / " ++ "SP.POP.TOTL" ++ " in "
                                            ++ str_int 2022))]
        \/ exists msg, payload = VDict [("error", VStr ("Unexpected error: " ++ msg))]).
Proof.
  exact (live_indicator_on_decoded_response
           (Samples.world_with
              (Ok (VDict [("message", VStr "rate limited"); ("code", VInt 1)]))
              None (fun l => l)) "FR" "SP.POP.TOTL" 2022
           (VDict [("message", VStr "rate limited"); ("code", VInt 1)]) eq_refl).
Defined.

(** ** The indicator helper and its request *)

(** X3.  [_fetch_world_bank_indicator] on a decoded body that has a
    length: a body with fewer than two elements gives the empty list; a
    body whose second element is falsy ([null], [0], [""], [{}], [[]])
    gives the empty list; a truthy second element is returned
    unchanged.  So whatever the helper returns is the empty list or a
    truthy value. *)
Theorem fetched_records_normalised (w : world) (country_code indicator : string)
    (year : option Z) (data : value) (n : nat) :
  let rq :=
    {| url := "https://api.worldbank.org/v2/country/" ++ country_code
              ++ "/indicator/" ++ indicator;
       params := [("format", VStr "json"); ("per_page", VInt 100)]
                 ++ match year with
                    | Some y => if y =? 0 then [] else [("date", VStr (str_int y))]
                    | None => []
                    end |} in
  http w rq = Ok data ->
  len data = Ok n ->
  ((n < 2)%nat ->
   _fetch_world_bank_indicator w country_code indicator year = ([rq], Ok (VList [])))
  /\ (forall d1,
        (2 <= n)%nat -> getitem_int data 1 = Ok d1 -> truthy d1 = false ->
        _fetch_world_bank_indicator w country_code indicator year
        = ([rq], Ok (VList [])))
  /\ (forall d1,
        (2 <= n)%nat -> getitem_int data 1 = Ok d1 -> truthy d1 = true ->
        _fetch_world_bank_indicator w country_code indicator year = ([rq], Ok d1))
  /\ (forall records,
        snd (_fetch_world_bank_indicator w country_code indicator year) = Ok records ->
        records = VList [] \/ truthy records = true).
Proof.
  intros rq Hhttp Hlen.
  assert (Hrun : _fetch_world_bank_indicator w country_code indicator year
                 = ([rq],
                    if (n <? 2)%nat then Ok (VList [])
                    else d1 <~ getitem_int data 1 ;;
                         if negb (truthy d1) then Ok (VList [])
                         else getitem_int data 1)).
  { unfold _fetch_world_bank_indicator, client_get_json.
    replace (match year with
             | Some y =>
                 if negb (y =? 0)
                 then ([("format", VStr "json"); ("per_page", VInt 100)]
                       ++ [("date", VStr (str_int y))])%list
                 else [("format", VStr "json"); ("per_page", VInt 100)]
             | None => [("format", VStr "json"); ("per_page", VInt 100)]
             end)
      with (params rq)
      by (subst rq; cbn [params]; destruct year as [y |];
          [destruct (y =? 0) |]; reflexivity).
    unfold bind, pure. subst rq. cbn [params url] in *.
    rewrite Hhttp. cbn [fst snd app]. rewrite Hlen. reflexivity. }
  rewrite Hrun. cbn [snd]. split; [| split; [| split]].
  - intros Hn. apply Nat.ltb_lt in Hn. now rewrite Hn.
  - intros d1 Hn Hd1 Hfalsy. apply Nat.ltb_ge in Hn. rewrite Hn, Hd1. cbn [rbind].
    now rewrite Hfalsy.
  - intros d1 Hn Hd1 Htruthy. apply Nat.ltb_ge in Hn. rewrite Hn, Hd1. cbn [rbind].
    now rewrite Htruthy.
  - intros records. destruct (n <? 2)%nat; [intros [= <-]; now left |].
    destruct (getitem_int data 1) as [d1 | e]; cbn [rbind]; [| discriminate].
    destruct (truthy d1) eqn:Htruthy; cbn [negb]; intros [= <-];
      [now right | now left].
Qed.

Lemma fetched_records_normalised_witness :
  let fetch body :=
    _fetch_world_bank_indicator
      (Samples.world_with (Ok body) None (fun l => l)) "FR" "SP.POP.TOTL" (Some 2022) in
  let rq := indicator_request "FR" "SP.POP.TOTL" 2022 in
  fetch (VList [VDict [("message", VStr "Invalid value")]]) = ([rq], Ok (VList []))
  /\ fetch (Samples.envelope VNone) = ([rq], Ok (VList []))
  /\ fetch (Samples.envelope (VDict [])) = ([rq], Ok (VList []))
  /\ fetch (Samples.envelope (VList [Samples.gdp_record "2022" VNone]))
     = ([rq], Ok (VList [Samples.gdp_record "2022" VNone])).
Proof.
  intros fetch rq.
  pose proof (fun body n =>
                fetched_records_normalised
                  (Samples.world_with (Ok body) None (fun l => l))
                  "FR" "SP.POP.TOTL" (Some 2022) body n eq_refl) as T.
  split; [| split; [| split]].
  - refine (proj1 (T (VList [VDict [("message", VStr "Invalid value")]]) 1%nat
                     eq_refl) _).
    lia.
  - refine (proj1 (proj2 (T (Samples.envelope VNone) 2%nat eq_refl))
              VNone _ eq_refl eq_refl).
    lia.
  - refine (proj1 (proj2 (T (Samples.envelope (VDict [])) 2%nat eq_refl))
              (VDict []) _ eq_refl eq_refl).
    lia.
  - refine (proj1 (proj2 (proj2 (T (Samples.envelope
                                      (VList [Samples.gdp_record "2022" VNone]))
                                   2%nat eq_refl)))
              (VList [Samples.gdp_record "2022" VNone]) _ eq_refl eq_refl).
    lia.
Defined.

(** X4.  [get_live_indicator] issues exactly one request, to the
    indicator URL built from the code and the indicator as given, with
    [format=json] and [per_page=100]; the [date] parameter is the
    decimal text of the year, and is left out when the year is [0]. *)
Theorem live_indicator_request (w : world) (country_code indicator : string) (year : Z) :
  exists rq,
    fst (get_live_indicator w country_code indicator year) = [rq]
    /\ url rq = "https://api.worldbank.org/v2/country/" ++ country_code
                ++ "/indicator/" ++ indicator
    /\ dict_lookup (params rq) "format" = Some (VStr "json")
    /\ dict_lookup (params rq) "per_page" = Some (VInt 100)
    /\ dict_lookup (params rq) "date"
       = (if year =? 0 then None else Some (VStr (str_int year)))
    /\ map fst (params rq)
       = (if year =? 0 then ["format"; "per_page"] else ["format"; "per_page"; "date"]).
Proof.
  destruct (get_live_indicator_returns w country_code indicator year) as [payload ->].
  exists (indicator_request country_code indicator year).
  unfold indicator_request. cbn [fst url params].
  destruct (year =? 0); repeat split.
Qed.

(** ** compare_countries as a whole *)

(** X5.  [compare_countries] sends one request per code, in the order of
    the codes and with duplicates kept, each the request
    [get_live_indicator] sends for that code; for the empty list it
    sends none. *)
Theorem compare_countries_requests (w : world) (country_codes : list string)
    (indicator : string) (year : Z) :
  fst (compare_countries w country_codes indicator year)
  = map (fun code => indicator_request code indicator year) country_codes
  /\ fst (compare_countries w country_codes indicator year)
     = flat_map (fun code => fst (get_live_indicator w code indicator year))
         country_codes.
Proof.
  assert (Hflat : flat_map (fun code => fst (get_live_indicator w code indicator year))
                    country_codes
                  = map (fun code => indicator_request code indicator year)
                      country_codes).
  { induction country_codes as [| code codes IH]; [reflexivity |].
    cbn [flat_map map]. rewrite IH.
    destruct (get_live_indicator_returns w code indicator year) as [payload ->].
    reflexivity. }
  unfold compare_countries.
  destruct country_codes as [| c cs]; [split; reflexivity |].
  rewrite compare_countries_with_nonempty by discriminate.
  cbn [fst]. split; [exact Hflat | reflexivity].
Qed.

(** X6.  Comparing the concatenation of two non-empty lists of codes
    gives the requests of the first comparison followed by those of the
    second, and the entries of the first followed by those of the
    second.  (With an empty part this fails: the empty comparison
    contributes its own error entry.) *)
Theorem compare_countries_app (lookup : string -> string -> Z -> M value)
    (codes1 codes2 : list string) (indicator : string) (year : Z) :
  codes1 <> [] ->
  codes2 <> [] ->
  exists t1 entries1 t2 entries2,
    compare_countries_with lookup codes1 indicator year = (t1, Ok entries1)
    /\ compare_countries_with lookup codes2 indicator year = (t2, Ok entries2)
    /\ compare_countries_with lookup (codes1 ++ codes2) indicator year
       = ((t1 ++ t2)%list, Ok (entries1 ++ entries2)%list).
Proof.
  intros H1 H2.
  assert (H12 : (codes1 ++ codes2)%list <> []).
  { destruct codes1; [contradiction | discriminate]. }
  rewrite !compare_countries_with_nonempty by assumption.
  do 4 eexists. split; [reflexivity |]. split; [reflexivity |].
  now rewrite flat_map_app, map_app.
Qed.

Lemma compare_countries_app_witness :
  exists t1 entries1 t2 entries2,
    compare_countries_with Samples.flaky_lookup ["A"; "B"] "SP.POP.TOTL" 2022
    = (t1, Ok entries1)
    /\ compare_countries_with Samples.flaky_lookup ["C"] "SP.POP.TOTL" 2022
       = (t2, Ok entries2)
    /\ compare_countries_with Samples.flaky_lookup (["A"; "B"] ++ ["C"]) "SP.POP.TOTL"
         2022
       = ((t1 ++ t2)%list, Ok (entries1 ++ entries2)%list).
Proof.
  refine (compare_countries_app Samples.flaky_lookup ["A"; "B"] ["C"] "SP.POP.TOTL" 2022
            _ _); discriminate.
Defined.

Lemma compare_countries_entries_are_payloads_witness :
  exists results,
    snd (compare_countries Samples.w_store ["USA"; "XYZ"] "NY.GDP.PCAP.CD" 2022)
    = Ok results
    /\ Forall2 (fun code entry =>
                  snd (get_live_indicator Samples.w_store code "NY.GDP.PCAP.CD" 2022)
                  = Ok entry)
         ["USA"; "XYZ"] results.
Proof.
  refine (compare_countries_entries_are_payloads Samples.w_store ["USA"; "XYZ"]
            "NY.GDP.PCAP.CD" 2022 _).
  discriminate.
Defined.

(** ** The indicators resource *)

(** X8.  The indicators resource matches codes without regard to letter
    case: two codes with the same upper-cased form get the same answer,
    except that the "not found" payload quotes each code as it was
    given. *)
Theorem indicators_ignore_letter_case (w : world) (code1 code2 : string) :
  upper code1 = upper code2 ->
  get_country_indicators w code1 = get_country_indicators w code2
  \/ (get_country_indicators w code1
      = Ok (json_dumps None
              [("error", "Country code '" ++ code1 ++ "' not found in local dataset")])
      /\ get_country_indicators w code2
         = Ok (json_dumps None
                 [("error", "Country code '" ++ code2 ++ "' not found in local dataset")])).
Proof.
  intros Hupper. unfold get_country_indicators. rewrite Hupper.
  destruct (_load_data w) as [df | e]; cbn [rbind rcatch]; [| now left].
  destruct (filter_eq_str "countryiso3code" (upper code2) df) as [filtered | e];
    cbn [rbind rcatch]; [| now left].
  destruct (is_empty filtered); [right; split; reflexivity | now left].
Qed.

Lemma indicators_ignore_letter_case_witness :
  get_country_indicators Samples.w_store "usa"
  = get_country_indicators Samples.w_store "UsA"
  /\ get_country_indicators Latin1.w_store Latin1.e_acute
     = get_country_indicators Latin1.w_store Latin1.E_acute
  /\ get_country_indicators Latin1.w_store Latin1.sharp_s
     = get_country_indicators Latin1.w_store "ss".
Proof.
  split; [| split].
  - destruct (indicators_ignore_letter_case Samples.w_store "usa" "UsA" eq_refl)
      as [Heq | [Hnf _]]; [exact Heq | discriminate Hnf].
  - destruct (indicators_ignore_letter_case Latin1.w_store Latin1.e_acute
                Latin1.E_acute eq_refl)
      as [Heq | [Hnf _]]; [exact Heq | discriminate Hnf].
  - destruct (indicators_ignore_letter_case Latin1.w_store Latin1.sharp_s "ss" eq_refl)
      as [Heq | [Hnf _]]; [exact Heq | discriminate Hnf].
Defined.

(** X9.  The indicators resource never returns an empty array and never
    raises.  It returns either the rows of the store whose code cell is
    the upper-cased code, in the store's order and with the store's
    columns, at least one of them, or an error object. *)
Theorem indicators_rows_or_error (w : world) (country_code : string) :
  (exists df i,
     _load_data w = Ok df
     /\ column_index "countryiso3code" (schema df) = Some (i, String_)
     /\ filter (fun r => cell_is_str (upper country_code) (cell_at i r)) (rows df) <> []
     /\ get_country_indicators w country_code
        = Ok (write_json
                {| schema := schema df;
                   rows := filter (fun r => cell_is_str (upper country_code)
                                              (cell_at i r)) (rows df) |}))
  \/ exists msg,
       get_country_indicators w country_code = Ok (json_dumps None [("error", msg)]).
Proof.
  unfold get_country_indicators, filter_eq_str.
  destruct (_load_data w) as [df | e]; cbn [rbind rcatch];
    [| right; destruct e; eexists; reflexivity].
  destruct (column_index "countryiso3code" (schema df)) as [[i t] |] eqn:Hcol;
    cbn [rbind rcatch]; [| right; eexists; reflexivity].
  destruct t; cbn [rbind rcatch]; try (right; eexists; reflexivity).
  unfold is_empty. cbn [rows].
  destruct (filter (fun r => cell_is_str (upper country_code) (cell_at i r)) (rows df))
    as [| r0 kept] eqn:Hkept; [right; eexists; reflexivity |].
  left. exists df, i. rewrite Hkept.
  split; [reflexivity |]. split; [exact Hcol |]. split; [discriminate | reflexivity].
Qed.

(** ** The countries resource *)

(** X10.  When the store loads and has both columns, the countries
    resource returns the JSON of a two-column frame, [countryiso3code]
    first and [country] second wherever they stand in the store, whose
    rows are the (code, name) pairs of the store's rows, each distinct
    pair once.  Pairs are compared as a whole, so one code with two
    spellings of the name appears twice. *)
Theorem countries_are_distinct_pairs (w : world) (df : DataFrame)
    (i j : nat) (ti tj : dtype) :
  _load_data w = Ok df ->
  column_index "countryiso3code" (schema df) = Some (i, ti) ->
  column_index "country" (schema df) = Some (j, tj) ->
  engine_ok w ->
  exists pairs,
    get_countries w
    = Ok (write_json {| schema := [("countryiso3code", ti); ("country", tj)];
                        rows := pairs |})
    /\ NoDup pairs
    /\ forall p, In p pairs <->
                 exists r, In r (rows df) /\ p = [cell_at i r; cell_at j r].
Proof.
  intros Hload Hi Hj Hok.
  unfold get_countries, select. rewrite Hload. cbn [rbind rcatch select_columns].
  rewrite Hi, Hj. cbn [rbind rcatch map fst snd unique schema rows].
  eexists. split; [reflexivity |]. split.
  - eapply Permutation_NoDup; [apply Hok | apply NoDup_nodup].
  - intros p. split.
    + intros Hin.
      apply (Permutation_in _ (Permutation_sym (Hok _))) in Hin.
      apply nodup_In, in_map_iff in Hin. destruct Hin as [r [<- Hr]]. now exists r.
    + intros [r [Hr ->]]. apply (Permutation_in _ (Hok _)).
      apply nodup_In, in_map_iff. now exists r.
Qed.

Lemma countries_are_distinct_pairs_witness :
  exists pairs,
    get_countries Samples.w_store_rev
    = Ok (write_json {| schema := [("countryiso3code", String_); ("country", String_)];
                        rows := pairs |})
    /\ NoDup pairs
    /\ forall p, In p pairs <->
                 exists r, In r (rows Samples.store) /\ p = [cell_at 0 r; cell_at 1 r].
Proof.
  refine (countries_are_distinct_pairs Samples.w_store_rev Samples.store 0 1
            String_ String_ eq_refl eq_refl eq_refl _).
  intros l. apply Permutation_rev.
Defined.

(** X11.  A store that lacks the [countryiso3code] column makes the
    indicators resource answer with a "Failed to fetch indicators"
    error object, not with "not found" and not with an exception; a
    store that lacks [countryiso3code] or [country] makes the countries
    resource answer with a "Failed to load countries" error object. *)
Theorem missing_column_is_reported (w : world) (df : DataFrame) :
  _load_data w = Ok df ->
  (column_index "countryiso3code" (schema df) = None ->
   forall country_code,
     exists msg,
       get_country_indicators w country_code
       = Ok (json_dumps None [("error", "Failed to fetch indicators: " ++ msg)]))
  /\ (column_index "countryiso3code" (schema df) = None
      \/ column_index "country" (schema df) = None ->
      exists msg,
        get_countries w
        = Ok (json_dumps None [("error", "Failed to load countries: " ++ msg)])).
Proof.
  intros Hload. split.
  - intros Hcol country_code.
    unfold get_country_indicators, filter_eq_str. rewrite Hload. cbn [rbind rcatch].
    rewrite Hcol. eexists. reflexivity.
  - intros Hcol. unfold get_countries, select. rewrite Hload.
    cbn [rbind rcatch select_columns].
    destruct (column_index "countryiso3code" (schema df)) as [[i ti] |];
      [| eexists; reflexivity].
    destruct Hcol as [Hcol | Hcol]; [discriminate Hcol |].
    rewrite Hcol. eexists. reflexivity.
Qed.

Lemma missing_column_is_reported_witness :
  let w := Samples.world_with Samples.offline
             (Some (Ok {| schema := [("iso", String_); ("country", String_)];
                          rows := [[CStr "USA"; CStr "United States"]] |}))
             (fun l => l) in
  (exists msg,
     get_country_indicators w "USA"
     = Ok (json_dumps None [("error", "Failed to fetch indicators: " ++ msg)]))
  /\ (exists msg,
        get_countries w
        = Ok (json_dumps None [("error", "Failed to load countries: " ++ msg)])).
Proof.
  intros w.
  pose proof (missing_column_is_reported w
                {| schema := [("iso", String_); ("country", String_)];
                   rows := [[CStr "USA"; CStr "United States"]] |} eq_refl) as [Hi Hc].
  split.
  - exact (Hi eq_refl "USA").
  - exact (Hc (or_introl eq_refl)).
Defined.

(** ** The scan of get_live_indicator *)

Lemma get_live_indicator_scan_raises w country_code indicator year env items e :
  http w (indicator_request country_code indicator year) = Ok (VList env) ->
  nth_error env 1 = Some (VList items) ->
  items <> [] ->
  scan_records country_code indicator year items = Raise e ->
  reshaping_fault e = true ->
  get_live_indicator w country_code indicator year
  = ([indicator_request country_code indicator year],
     Ok (error_payload ("Unexpected error: " ++ str_exn e))).
Proof.
  intros Hhttp Hrec Hne Hscan Hfault. unfold get_live_indicator.
  rewrite (fetch_indicator_ok _ _ _ _ _ Hhttp).
  destruct env as [| meta [| d1 tl]]; try discriminate Hrec.
  injection Hrec as ->.
  destruct items as [| r0 items]; [now elim Hne |].
  cbn [len length Nat.ltb Nat.leb rbind getitem_int nth_error truthy negb
       bind pure fst snd app try_except iterate].
  rewrite Hscan. destruct e; try discriminate Hfault; reflexivity.
Qed.

(** X12.  The scan stops at the first record it cannot read.  If, before
    any record dated with the requested year, a record is not an object,
    the result is an "Unexpected error" payload naming that record's
    type, even when a later record has the right date.  The same holds
    for a record with the right date whose [country] field, or whose
    [indicator] field, is present and not an object. *)
Theorem scan_stops_at_malformed_record (w : world) (country_code indicator : string)
    (year : Z) (env pre post : list value) :
  http w (indicator_request country_code indicator year) = Ok (VList env) ->
  Forall (other_year year) pre ->
  (forall x,
     nth_error env 1 = Some (VList (pre ++ x :: post)) ->
     (forall d, x <> VDict d) ->
     get_live_indicator w country_code indicator year
     = ([indicator_request country_code indicator year],
        Ok (VDict [("error",
                    VStr ("Unexpected error: '" ++ type_name x
                          ++ "' object has no attribute 'get'"))])))
  /\ (forall r x,
        nth_error env 1 = Some (VList (pre ++ VDict r :: post)) ->
        eq_str (dict_get r "date" VNone) (str_int year) = true ->
        (dict_get r "country" (VDict []) = x
         \/ (exists c, dict_get r "country" (VDict []) = VDict c)
            /\ dict_get r "indicator" (VDict []) = x) ->
        (forall d, x <> VDict d) ->
        get_live_indicator w country_code indicator year
        = ([indicator_request country_code indicator year],
           Ok (VDict [("error",
                       VStr ("Unexpected error: '" ++ type_name x
                             ++ "' object has no attribute 'get'"))]))).
Proof.
  intros Hhttp Hpre. split.
  - intros x Hrec Hx.
    apply (get_live_indicator_scan_raises w country_code indicator year env
             (pre ++ x :: post) (no_attribute x "get") Hhttp Hrec).
    + now destruct pre.
    + rewrite scan_records_skip by assumption.
      destruct x; try reflexivity. now elim (Hx d).
    + reflexivity.
  - intros r x Hrec Hdate Hfield Hx.
    apply (get_live_indicator_scan_raises w country_code indicator year env
             (pre ++ VDict r :: post) (no_attribute x "get") Hhttp Hrec).
    + now destruct pre.
    + rewrite scan_records_skip by assumption.
      cbn [scan_records method_get rbind]. rewrite Hdate.
      destruct Hfield as [Hc | [[c Hc] Hi]].
      * rewrite Hc. destruct x; try reflexivity. now elim (Hx d).
      * rewrite Hc. cbn [method_get rbind]. rewrite Hi.
        destruct x; try reflexivity. now elim (Hx d).
    + reflexivity.
Qed.

Lemma scan_stops_at_malformed_record_witness :
  let run records :=
    get_live_indicator
      (Samples.world_with (Ok (Samples.envelope (VList records))) None (fun l => l))
      "FR" "NY.GDP.PCAP.CD" 2022 in
  run [Samples.gdp_record "2023" VNone; VNone; Samples.gdp_record "2022" (VInt 1)]
  = ([indicator_request "FR" "NY.GDP.PCAP.CD" 2022],
     Ok (VDict [("error",
                 VStr "Unexpected error: 'NoneType' object has no attribute 'get'")]))
  /\ run [VDict [("date", VStr "2022"); ("indicator", VStr "NY.GDP.PCAP.CD")]]
     = ([indicator_request "FR" "NY.GDP.PCAP.CD" 2022],
        Ok (VDict [("error",
                    VStr "Unexpected error: 'str' object has no attribute 'get'")])).
Proof.
  intros run. split.
  - refine (proj1 (scan_stops_at_malformed_record
                     (Samples.world_with
                        (Ok (Samples.envelope
                               (VList [Samples.gdp_record "2023" VNone; VNone;
                                       Samples.gdp_record "2022" (VInt 1)])))
                        None (fun l => l))
                     "FR" "NY.GDP.PCAP.CD" 2022
                     [VDict [("page", VInt 1); ("pages", VInt 1)];
                      VList [Samples.gdp_record "2023" VNone; VNone;
                             Samples.gdp_record "2022" (VInt 1)]]
                     [Samples.gdp_record "2023" VNone]
                     [Samples.gdp_record "2022" (VInt 1)]
                     eq_refl _) VNone eq_refl _).
    + constructor; [| constructor]. eexists. split; reflexivity.
    + discriminate.
  - refine (proj2 (scan_stops_at_malformed_record
                     (Samples.world_with
                        (Ok (Samples.envelope
                               (VList [VDict [("date", VStr "2022");
                                              ("indicator", VStr "NY.GDP.PCAP.CD")]])))
                        None (fun l => l))
                     "FR" "NY.GDP.PCAP.CD" 2022
                     [VDict [("page", VInt 1); ("pages", VInt 1)];
                      VList [VDict [("date", VStr "2022");
                                    ("indicator", VStr "NY.GDP.PCAP.CD")]]]
                     [] [] eq_refl (Forall_nil _))
              [("date", VStr "2022"); ("indicator", VStr "NY.GDP.PCAP.CD")]
              (VStr "NY.GDP.PCAP.CD") eq_refl eq_refl _ _).
    + right. split; [exists []; reflexivity | reflexivity].
    + discriminate.
Defined.

Lemma to_int_not_nil z :
  Z.to_int z <> Decimal.Pos Decimal.Nil /\ Z.to_int z <> Decimal.Neg Decimal.Nil.
Proof.
  split; intros H; pose proof (DecimalZ.of_to z) as Hz; rewrite H in Hz;
    cbn in Hz; subst z; discriminate H.
Qed.

Lemma str_int_injective y y' : str_int y = str_int y' -> y = y'.
Proof.
  unfold str_int. intros H.
  apply DecimalZ.to_int_inj.
  destruct (to_int_not_nil y) as [Hp Hn], (to_int_not_nil y') as [Hp' Hn'].
  pose proof (NilZero.isi _ Hp Hn) as Hy.
  pose proof (NilZero.isi _ Hp' Hn') as Hy'.
  rewrite H in Hy. rewrite Hy in Hy'. now injection Hy'.
Qed.

(** X13.  Years are matched exactly.  When every record is an object
    dated with the decimal text of some other year, the result is the
    "No data found" payload; a response for neighbouring years, or for
    all years when the date filter was left out, never stands in for
    the requested one. *)
Theorem other_years_never_match (w : world) (country_code indicator : string)
    (year : Z) (env items : list value) :
  http w (indicator_request country_code indicator year) = Ok (VList env) ->
  nth_error env 1 = Some (VList items) ->
  items <> [] ->
  Forall (fun record =>
            exists d y, record = VDict d
                        /\ dict_get d "date" VNone = VStr (str_int y)
                        /\ y <> year) items ->
  get_live_indicator w country_code indicator year
  = ([indicator_request country_code indicator year],
     Ok (VDict [("error", VStr ("No data found for " ++ country_code ++ " / "
                                ++ indicator ++ " in " ++ str_int year))])).
Proof.
  intros Hhttp Hrec Hne Hall.
  apply (get_live_indicator_scans _ _ _ w env items); try assumption.
  apply scan_records_no_match.
  eapply Forall_impl; [| exact Hall].
  intros record [d [y [-> [Hdate Hy]]]]. exists d. split; [reflexivity |].
  rewrite Hdate. cbn [eq_str]. apply String.eqb_neq.
  intros Heq. apply Hy. now apply str_int_injective.
Qed.

Lemma other_years_never_match_witness :
  get_live_indicator
    (Samples.world_with
       (Ok (Samples.envelope (VList [Samples.gdp_record "2023" (VFloat "44690.93");
                                     Samples.gdp_record "202" (VFloat "1.0")])))
       None (fun l => l))
    "FR" "NY.GDP.PCAP.CD" 2022
  = ([indicator_request "FR" "NY.GDP.PCAP.CD" 2022],
     Ok (VDict [("error", VStr "No data found for FR / NY.GDP.PCAP.CD in 2022")])).
Proof.
  refine (other_years_never_match
            (Samples.world_with
               (Ok (Samples.envelope
                      (VList [Samples.gdp_record "2023" (VFloat "44690.93");
                              Samples.gdp_record "202" (VFloat "1.0")])))
               None (fun l => l))
            "FR" "NY.GDP.PCAP.CD" 2022
            [VDict [("page", VInt 1); ("pages", VInt 1)];
             VList [Samples.gdp_record "2023" (VFloat "44690.93");
                    Samples.gdp_record "202" (VFloat "1.0")]]
            _ eq_refl eq_refl _ _).
  - discriminate.
  - constructor; [| constructor; [| constructor]].
    + eexists _, 2023. split; [reflexivity |]. split; [reflexivity | discriminate].
    + eexists _, 202. split; [reflexivity |]. split; [reflexivity | discriminate].
Defined.

(** ** get_country_info: when it succeeds *)

(** X14.  When the decoded body has no first element, [get_country_info]
    returns an "Unexpected error" payload carrying the text of the
    subscript failure: an empty array gives "list index out of range",
    not the "not found" message, an object gives the missing key [0],
    and [null] or a number gives the "not subscriptable" text. *)
Theorem country_info_without_first_element (w : world) (country_code : string)
    (body : value) (e : exn) :
  http w (countries_request country_code) = Ok body ->
  getitem_int body 0 = Raise e ->
  get_country_info w country_code
  = ([countries_request country_code],
     Ok (VDict [("error", VStr ("Unexpected error: " ++ str_exn e))]))
  /\ (body = VList [] -> str_exn e = "list index out of range")
  /\ ((exists d, body = VDict d) -> str_exn e = "0")
  /\ (body = VNone -> str_exn e = "'NoneType' object is not subscriptable").
Proof.
  intros Hhttp Hfirst. split; [| split; [| split]].
  - unfold get_country_info. rewrite fetch_rest_countries_run, Hhttp.
    cbn [rbind]. rewrite Hfirst.
    pose proof (getitem_int_fault body 0) as Hfault. rewrite Hfirst in Hfault.
    cbn in Hfault. destruct e; try discriminate Hfault; reflexivity.
  - intros ->. cbn in Hfirst. now injection Hfirst as <-.
  - intros [d ->]. cbn in Hfirst. now injection Hfirst as <-.
  - intros ->. cbn in Hfirst. now injection Hfirst as <-.
Qed.

Lemma country_info_without_first_element_witness :
  get_country_info (Samples.world_with (Ok (VList [])) None (fun l => l)) "ZZ"
  = ([countries_request "ZZ"],
     Ok (VDict [("error", VStr "Unexpected error: list index out of range")]))
  /\ get_country_info
       (Samples.world_with (Ok (VDict [("message", VStr "Not Found")])) None
          (fun l => l)) "ZZ"
     = ([countries_request "ZZ"], Ok (VDict [("error", VStr "Unexpected error: 0")])).
Proof.
  split.
  - exact (proj1 (country_info_without_first_element
                    (Samples.world_with (Ok (VList [])) None (fun l => l)) "ZZ"
                    (VList []) (IndexError "list index out of range")
                    eq_refl eq_refl)).
  - exact (proj1 (country_info_without_first_element
                    (Samples.world_with (Ok (VDict [("message", VStr "Not Found")]))
                       None (fun l => l)) "ZZ"
                    (VDict [("message", VStr "Not Found")]) (KeyError "0")
                    eq_refl eq_refl)).
Defined.

(** X15.  [get_country_info] returns a Country Info only for a first
    match of the expected shape: if the payload has the eight Country
    Info keys and the first element is an object, then that object
    carries [name.common], its [capital] (or the default) has a first
    element, and its [languages] and [currencies], when present, are
    objects.  Any other object ends as an error payload. *)
Theorem country_info_success_needs_shape (w : world) (country_code : string)
    (d : list (string * value)) (rest : list value) (payload : value) :
  http w (countries_request country_code) = Ok (VList (VDict d :: rest)) ->
  get_country_info w country_code = ([countries_request country_code], Ok payload) ->
  keys payload
  = ["name"; "capital"; "region"; "subregion"; "languages"; "currencies";
     "population"; "flag"] ->
  (exists name_obj common,
     dict_lookup d "name" = Some (VDict name_obj)
     /\ dict_lookup name_obj "common" = Some common)
  /\ (exists capital,
        getitem_int (dict_get d "capital" (VList [VStr "N/A"])) 0 = Ok capital)
  /\ (exists langs, dict_get d "languages" (VDict []) = VDict langs)
  /\ (exists curs, dict_get d "currencies" (VDict []) = VDict curs).
Proof.
  intros Hhttp Hrun Hkeys. unfold get_country_info in Hrun.
  rewrite (reshape_first_match _ _ _ _ _ _ Hhttp) in Hrun.
  cbn [rbind getitem_str method_get] in Hrun.
  assert (Hbad : forall msg, keys (error_payload msg)
                             <> ["name"; "capital"; "region"; "subregion"; "languages";
                                 "currencies"; "population"; "flag"])
    by (intros msg; discriminate).
  destruct (dict_lookup d "name") as [name |] eqn:Hname;
    [| cbn in Hrun; injection Hrun as <-; now elim (Hbad _ Hkeys)].
  cbn [rbind] in Hrun.
  destruct name as [| | | | | | name_obj];
    try (cbn in Hrun; injection Hrun as <-; now elim (Hbad _ Hkeys)).
  cbn [getitem_str] in Hrun.
  destruct (dict_lookup name_obj "common") as [common |] eqn:Hcommon;
    [| cbn in Hrun; injection Hrun as <-; now elim (Hbad _ Hkeys)].
  cbn [rbind] in Hrun.
  destruct (getitem_int (dict_get d "capital" (VList [VStr "N/A"])) 0)
    as [capital | e] eqn:Hcap.
  2:{ pose proof (getitem_int_fault (dict_get d "capital" (VList [VStr "N/A"])) 0)
        as Hfault.
      rewrite Hcap in Hfault. cbn in Hfault.
      destruct e; try discriminate Hfault;
        cbn in Hrun; injection Hrun as <-; now elim (Hbad _ Hkeys). }
  cbn [rbind] in Hrun.
  destruct (dict_get d "languages" (VDict [])) as [| | | | | | langs] eqn:Hlangs;
    try (cbn in Hrun; injection Hrun as <-; now elim (Hbad _ Hkeys)).
  cbn [rbind method_values] in Hrun.
  destruct (dict_get d "currencies" (VDict [])) as [| | | | | | curs] eqn:Hcurs;
    try (cbn in Hrun; injection Hrun as <-; now elim (Hbad _ Hkeys)).
  repeat split; eauto.
Qed.

Lemma country_info_success_needs_shape_witness :
  (exists name_obj common,
     dict_lookup [("name", VDict [("common", VStr "Nowhere")])] "name"
     = Some (VDict name_obj)
     /\ dict_lookup name_obj "common" = Some common)
  /\ (exists capital,
        getitem_int (dict_get [("name", VDict [("common", VStr "Nowhere")])] "capital"
                       (VList [VStr "N/A"])) 0 = Ok capital)
  /\ (exists langs,
        dict_get [("name", VDict [("common", VStr "Nowhere")])] "languages" (VDict [])
        = VDict langs)
  /\ (exists curs,
        dict_get [("name", VDict [("common", VStr "Nowhere")])] "currencies" (VDict [])
        = VDict curs).
Proof.
  exact (country_info_success_needs_shape
           (Samples.world_with
              (Ok (VList [VDict [("name", VDict [("common", VStr "Nowhere")])]]))
              None (fun l => l))
           "NW" [("name", VDict [("common", VStr "Nowhere")])] []
           (VDict [("name", VStr "Nowhere");
                   ("capital", VStr "N/A");
                   ("region", VStr "N/A");
                   ("subregion", VStr "N/A");
                   ("languages", VList []);
                   ("currencies", VList []);
                   ("population", VInt 0);
                   ("flag", VStr "")])
           eq_refl eq_refl eq_refl).
Defined.

(** ** The upper-casing table

    Every code point below 256 that [str.upper()] changes, with its
    image. *)

Example upper_char_table :
  filter (fun p => negb (same_points (snd p) [fst p]))
    (map (fun n => (n, upper_char (ascii_of_nat n))) (seq 0 256))
  = [
     (97, [65]); (98, [66]); (99, [67]); (100, [68]); (101, [69]); (102, [70]);
     (103, [71]); (104, [72]); (105, [73]); (106, [74]); (107, [75]); (108, [76]);
     (109, [77]); (110, [78]); (111, [79]); (112, [80]); (113, [81]); (114, [82]);
     (115, [83]); (116, [84]); (117, [85]); (118, [86]); (119, [87]); (120, [88]);
     (121, [89]); (122, [90]); (181, [924]); (223, [83; 83]); (224, [192]); (225,
     [193]); (226, [194]); (227, [195]); (228, [196]); (229, [197]); (230, [198]);
     (231, [199]); (232, [200]); (233, [201]); (234, [202]); (235, [203]); (236,
     [204]); (237, [205]); (238, [206]); (239, [207]); (240, [208]); (241, [209]);
     (242, [210]); (243, [211]); (244, [212]); (245, [213]); (246, [214]); (248,
     [216]); (249, [217]); (250, [218]); (251, [219]); (252, [220]); (253, [221]);
     (254, [222]); (255, [376])
    ]%nat.
Proof. vm_compute. reflexivity. Qed.
